(** * Container monitor and load injector: a shallow embedding

    The two scripts of [Pythonscripts/] are embedded as pure functions:

    - [metrics.py]: [Metrics.get_container_stats] and
      [Metrics.monitor_containers];
    - [container_load_test.py]: [LoadTest.run_stress] and [LoadTest.main].

    Python exceptions become the [Raise] constructor of [Py.result]; a
    function that prints, sends mail or executes commands is a computation
    in [Py.io]: the list of its events, in program order, with its outcome.
    Python floats are IEEE-754 binary64 values, modelled with the
    [spec_float] of the standard library at precision 53. *)

From Stdlib Require Import ZArith List String Ascii Bool Lia.
From Stdlib Require Import Floats.SpecFloat.
From Stdlib Require Import DecimalString DecimalZ.
Import ListNotations.

Open Scope Z_scope.

(** ** The fragment of the Python runtime the scripts rely on *)

Module Py.

(** Exceptions deriving from [Exception]: the errors the scripts can raise
    themselves (the two arithmetic ones, and [AttributeError] for a method
    the object does not have), and the errors of the external collaborators
    (docker API, SMTP), which carry their message.  The end of the program
    by argparse on a bad command line is written as the exception of
    [parse_args]: line 50 of the injector is outside every [try]. *)
Inductive exn : Type :=
| ZeroDivisionError
| OverflowError
| AttributeError
| ExternalError (msg : string).

Inductive result (A : Type) : Type :=
| Ok (a : A)
| Raise (e : exn).
Arguments Ok {A} a.
Arguments Raise {A} e.

Definition rbind {A B : Type} (m : result A) (k : A -> result B) : result B :=
  match m with
  | Ok a => k a
  | Raise e => Raise e
  end.

(** A computation with events of type [E]: the events it produced and how
    it ended.  An exception ends the computation and keeps the events
    produced before it. *)
Definition io (E A : Type) : Type := list E * result A.

Definition trace {E A : Type} (m : io E A) : list E := fst m.
Definition outcome {E A : Type} (m : io E A) : result A := snd m.

Definition ret {E A : Type} (a : A) : io E A := ([], Ok a).

Definition bind {E A B : Type} (m : io E A) (k : A -> io E B) : io E B :=
  match outcome m with
  | Ok a => (trace m ++ trace (k a), outcome (k a))
  | Raise e => (trace m, Raise e)
  end.

(** [print(...)] *)
Definition print {E : Type} (ev : E) : io E unit := ([ev], Ok tt).

(** A call to an external collaborator: the request [ev] and its outcome. *)
Definition call {E A : Type} (ev : E) (r : result A) : io E A := ([ev], r).

(** A computation without events. *)
Definition lift {E A : Type} (r : result A) : io E A := ([], r).

(** [try: body  except Exception as e: handler e] *)
Definition try_except {E A : Type} (body : io E A) (handler : exn -> io E A)
  : io E A :=
  match outcome body with
  | Ok a => body
  | Raise e => (trace body ++ trace (handler e), outcome (handler e))
  end.

(** [with enter as x: body], where [exit] is what [__exit__] does and
    returns a false value: [exit] runs as soon as [enter] returned, also
    when [body] raised; an exception of [exit] replaces the one of
    [body]. *)
Definition with_ {E A : Type} (enter : io E unit) (body : io E A)
  (exit : io E unit) : io E A :=
  match outcome enter with
  | Raise e => (trace enter, Raise e)
  | Ok _ =>
      (trace enter ++ trace body ++ trace exit,
       match outcome exit with
       | Raise e => Raise e
       | Ok _ => outcome body
       end)
  end.

(** [for x in l: body x] *)
Fixpoint for_each {E A : Type} (l : list A) (body : A -> io E unit)
  : io E unit :=
  match l with
  | [] => ret tt
  | x :: l' => bind (body x) (fun _ => for_each l' body)
  end.

(** binary64 *)
Definition prec : Z := 53.
Definition emax : Z := 1024.

Definition float : Type := spec_float.

Definition fmul (x y : float) : float := SFmul prec emax x y.
(** [x > y] on floats is [fgt x y]; it is false as soon as one is a NaN. *)
Definition fgt (x y : float) : bool := SFltb y x.

Definition is_infinity (x : float) : bool :=
  match x with
  | S754_infinity _ => true
  | _ => false
  end.

(** The integer [z] as the mantissa of a float with exponent 0, before any
    rounding. *)
Definition exact (z : Z) : float :=
  match z with
  | Z0 => S754_zero false
  | Zpos m => S754_finite false m 0
  | Zneg m => S754_finite true m 0
  end.

(** [float(z)] for an int [z]: rounded to nearest-even, [OverflowError]
    beyond the largest finite float. *)
Definition float_of_int (z : Z) : result float :=
  let f := binary_normalize prec emax z 0 false in
  if is_infinity f then Raise OverflowError else Ok f.

(** [a / b] on ints (true division): the correctly rounded quotient of the
    two integers, [ZeroDivisionError] for a zero divisor and
    [OverflowError] when the quotient rounds beyond the finite floats. *)
Definition truediv (a b : Z) : result float :=
  if b =? 0 then Raise ZeroDivisionError
  else
    let q := SFdiv prec emax (exact a) (exact b) in
    if is_infinity q then Raise OverflowError else Ok q.

(** Float literals of the scripts. *)
Definition f0_0 : float := S754_zero false.
Definition f70_0 : float :=
  Eval vm_compute in binary_normalize prec emax 70 0 false.
Definition f100_0 : float :=
  Eval vm_compute in binary_normalize prec emax 100 0 false.

(** [str(z)] for an int [z], as an f-string renders [{z}]. *)
Definition str (z : Z) : string := NilZero.string_of_int (Z.to_int z).

(** [len(l)] *)
Definition len {A : Type} (l : list A) : Z := Z.of_nat (List.length l).

(** [int(s)] for a decimal string [s]. *)
Definition int (s : string) : option Z :=
  option_map Z.of_int (NilZero.int_of_string s).

(** The float is [+0.0], a positive finite number or [+inf]: neither
    negative nor a NaN. *)
Definition nonnegative (x : float) : bool :=
  match x with
  | S754_zero s | S754_infinity s | S754_finite s _ _ => negb s
  | S754_nan => false
  end.

(** The float is a zero or a finite number. *)
Definition is_finite (x : float) : bool :=
  match x with
  | S754_zero _ | S754_finite _ _ _ => true
  | S754_infinity _ | S754_nan => false
  end.

End Py.

Import Py.

Declare Scope result_scope.
Delimit Scope result_scope with result.
Notation "x <- m ;; k" := (rbind m (fun x => k))
  (at level 61, m at next level, right associativity) : result_scope.

Declare Scope io_scope.
Delimit Scope io_scope with io.
Notation "x <- m ;; k" := (bind m (fun x => k))
  (at level 61, m at next level, right associativity) : io_scope.
Notation "m ;; k" := (bind m (fun _ => k))
  (at level 61, right associativity) : io_scope.

(** ** metrics.py *)

Module Metrics.

(** The part of the dictionary returned by [container.stats(stream=False)]
    that the monitor reads; the counters are ints. *)
Record CpuUsage : Type :=
  { total_usage : Z;
    percpu_usage : list Z }.

Record CpuStats : Type :=
  { cpu_usage : CpuUsage;
    system_cpu_usage : Z }.

Record MemoryStats : Type :=
  { usage : Z;
    limit : Z }.

Record Stats : Type :=
  { cpu_stats : CpuStats;
    precpu_stats : CpuStats;
    memory_stats : MemoryStats }.

(** A container as the monitor sees it: its name and the outcome of one
    call to [stats(stream=False)]. *)
Record container : Type :=
  { name : string;
    stats : result Stats }.

(** The docker client as the monitor uses it: the outcome of
    [client.containers.list()]. *)
Record Client : Type :=
  { containers_list : result (list container) }.

(** One SMTP session, step by step: the outcome of [smtplib.SMTP(...)], of
    the three calls on the server in the [with] block, and of the [QUIT]
    that [SMTP.__exit__] sends when the block is left. *)
Record Session : Type :=
  { connect : result unit;
    starttls : result unit;
    login : result unit;
    send_message : result unit;
    quit : result unit }.

(** What the monitor prints, and the message for which it opens an SMTP
    session; a print event carries the values its f-string renders. *)
Inductive event : Type :=
| PrintContainer (container_name : string)
| PrintCPU (cpu : float)
| PrintMemory (mem : float)
| PrintHealthy
| PrintErrorFetchingStats (container_name : string) (e : exn)
| SmtpSendMessage (container_name : string) (cpu mem : float)
| PrintAlertEmailSent (container_name : string)
| PrintFailedToSendEmail (e : exn).

Definition CPU_THRESHOLD : float := f70_0.
Definition MEM_THRESHOLD : float := f70_0.

Definition cpu_delta (s : Stats) : Z :=
  total_usage (cpu_usage (cpu_stats s))
  - total_usage (cpu_usage (precpu_stats s)).

Definition system_delta (s : Stats) : Z :=
  system_cpu_usage (cpu_stats s) - system_cpu_usage (precpu_stats s).

(** Lines 52-54: the local [cpu_usage] of [get_container_stats]. *)
Definition cpu_percent (s : Stats) : result float :=
  (if (0 <? system_delta s) && (0 <? cpu_delta s) then
     q <- truediv (cpu_delta s) (system_delta s) ;;
     n <- float_of_int (len (percpu_usage (cpu_usage (cpu_stats s)))) ;;
     Ok (fmul (fmul q n) f100_0)
   else Ok f0_0)%result.

(** Lines 56-58: the local [mem_usage] of [get_container_stats]. *)
Definition mem_percent (s : Stats) : result float :=
  (r <- truediv (usage (memory_stats s)) (limit (memory_stats s)) ;;
   Ok (fmul r f100_0))%result.

Definition get_container_stats (c : container) : result (float * float) :=
  (s <- stats c ;;
   cpu <- cpu_percent s ;;
   mem <- mem_percent s ;;
   Ok (cpu, mem))%result.

Section Monitor.

(** The SMTP session that [send_email_alert] gets for the message built
    from the three arguments. *)
Variable smtp : string -> float -> float -> Session.

Definition send_email_alert (container_name : string) (cpu mem : float)
  : io event unit :=
  let server := smtp container_name cpu mem in
  try_except
    (with_ (call (SmtpSendMessage container_name cpu mem) (connect server))
           (lift (starttls server) ;;
            lift (login server) ;;
            lift (send_message server) ;;
            print (PrintAlertEmailSent container_name))%io
           (lift (quit server)))
    (fun e => print (PrintFailedToSendEmail e)).

(** The body of the [for] loop of [monitor_containers]. *)
Definition monitor_container (c : container) : io event unit :=
  try_except
    (r <- lift (get_container_stats c) ;;
     let '(cpu, mem) := r in
     print (PrintContainer (name c)) ;;
     print (PrintCPU cpu) ;;
     print (PrintMemory mem) ;;
     if fgt cpu CPU_THRESHOLD || fgt mem MEM_THRESHOLD
     then send_email_alert (name c) cpu mem
     else print PrintHealthy)%io
    (fun e => print (PrintErrorFetchingStats (name c) e)).

(** [from_env] is the outcome of [docker.from_env()]. *)
Definition monitor_containers (from_env : result Client) : io event unit :=
  (client <- lift from_env ;;
   containers <- lift (containers_list client) ;;
   for_each containers monitor_container)%io.

End Monitor.

(** A docker daemon that is reachable and lists [containers]. *)
Definition listing (containers : list container) : result Client :=
  Ok {| containers_list := Ok containers |}.

(** The notifications a run handed to the transport. *)
Fixpoint notifications (t : list event) : list (string * float * float) :=
  match t with
  | [] => []
  | SmtpSendMessage n cpu mem :: t' => (n, cpu, mem) :: notifications t'
  | _ :: t' => notifications t'
  end.

(** A trace without the two reports of [send_email_alert] on how the
    transport ended. *)
Fixpoint without_reports (t : list event) : list event :=
  match t with
  | [] => []
  | PrintAlertEmailSent _ :: t' => without_reports t'
  | PrintFailedToSendEmail _ :: t' => without_reports t'
  | ev :: t' => ev :: without_reports t'
  end.

End Metrics.

(** ** container_load_test.py *)

Module LoadTest.

(** The output of an execution: the docker client gives the captured
    [bytes] for an attached execution and the text of the daemon's
    response, a [str], for a detached one. *)
Inductive Output : Type :=
| Bytes (b : list Byte.byte)
| Str (s : string).

(** [out.decode(errors='ignore')]: only [bytes] can be decoded; the event
    that prints the result carries the bytes. *)
Definition decode (out : Output) : result (list Byte.byte) :=
  match out with
  | Bytes b => Ok b
  | Str _ => Raise AttributeError
  end.

(** [ExecResult] of the docker client: the exit code, [None] when it is not
    known yet, and the output. *)
Record ExecResult : Type :=
  { exit_code : option Z;
    output : Output }.

(** A container as the load injector sees it; [exec_run cmd detach] is the
    outcome of [container.exec_run(cmd, detach=detach)]. *)
Record container : Type :=
  { name : string;
    short_id : string;
    exec_run : string -> bool -> result ExecResult }.

(** What the injector asks a container to execute, and what it prints; a
    print event carries the values its f-string renders. *)
Inductive event : Type :=
| ExecRun (container_name cmd : string) (detach : bool)
| PrintCouldNotCheck (container_name : string) (e : exn)
| PrintFound (container_name : string)
| PrintNotFound (container_name : string)
| PrintStarting (mode container_name : string) (duration : Z)
| PrintFailedOutput (container_name : string) (out : list Byte.byte)
| PrintExecuted (container_name : string)
| PrintFailed (container_name : string) (e : exn)
| PrintTarget (container_name container_short_id : string)
| PrintCouldNotAccess (name : string) (e : exn)
| PrintLaunched.

(** The line break and the double quote of the memory loop of line 28. *)
Definition newline : string := String (ascii_of_nat 10) EmptyString.
Definition dquote : string := String (ascii_of_nat 34) EmptyString.

(** [exit_code == 0] *)
Definition exit_code_is_0 (r : ExecResult) : bool :=
  match exit_code r with
  | Some z => z =? 0
  | None => false
  end.

(** [exit_code not in (0, None)] *)
Definition exit_code_not_in_0_None (r : ExecResult) : bool :=
  match exit_code r with
  | Some z => negb (z =? 0)
  | None => false
  end.

(** Lines 8-13: the [try] that sets [has_stress_ng]. *)
Definition check_stress_ng (c : container) : io event bool :=
  try_except
    (exec_check <- call (ExecRun (name c) "which stress-ng" false)
                        (exec_run c "which stress-ng" false) ;;
     ret (exit_code_is_0 exec_check))%io
    (fun e => print (PrintCouldNotCheck (name c) e) ;; ret false)%io.

Definition python_cpu_loop : string :=
  "python3 -c 'import threading,math;[threading.Thread(target=lambda: [math.sqrt(i) for i in range(10**7)]).start() for _ in range(4)]'".

Definition python_mem_loop : string :=
  "python3 -c 'a=[]" ++ newline ++ "while True: a.append("
  ++ (dquote ++ "x" ++ dquote ++ "*10**6") ++ ")'".

(** Lines 15-30: the value assigned to [cmd]. *)
Definition cmd (has_stress_ng : bool) (mode : string) (duration : Z) : string :=
  if has_stress_ng then
    if String.eqb mode "cpu" then
      "stress-ng --cpu 4 --timeout " ++ str duration
    else if String.eqb mode "mem" then
      "stress-ng --vm 2 --vm-bytes 90% --timeout " ++ str duration
    else
      "stress-ng --cpu 4 --vm 2 --vm-bytes 90% --timeout " ++ str duration
  else
    if String.eqb mode "cpu" then python_cpu_loop
    else if String.eqb mode "mem" then python_mem_loop
    else python_cpu_loop.

(** Lines 34-41: the detached execution of [cmd] and its report. *)
Definition dispatch (c : container) (cmd : string) : io event unit :=
  try_except
    (exec_result <- call (ExecRun (name c) cmd true) (exec_run c cmd true) ;;
     if exit_code_not_in_0_None exec_result
     then (out <- lift (decode (output exec_result)) ;;
           print (PrintFailedOutput (name c) out))
     else print (PrintExecuted (name c)))%io
    (fun e => print (PrintFailed (name c) e)).

Definition run_stress (c : container) (mode : string) (duration : Z)
  : io event unit :=
  (has_stress_ng <- check_stress_ng c ;;
   print (if has_stress_ng : bool
          then PrintFound (name c) else PrintNotFound (name c)) ;;
   print (PrintStarting mode (name c) duration) ;;
   dispatch c (cmd has_stress_ng mode duration))%io.

Section Main.

(** [client.containers.get] *)
Variable get : string -> result container.

(** The body of the [for] loop of [main]. *)
Definition stress_container (mode : string) (duration : Z) (name : string)
  : io event unit :=
  try_except
    (container <- lift (get name) ;;
     print (PrintTarget (LoadTest.name container) (short_id container)) ;;
     run_stress container mode duration)%io
    (fun e => print (PrintCouldNotAccess name e)).

End Main.

(** The namespace returned by [parser.parse_args()]. *)
Record Args : Type :=
  { containers : list string;
    mode : string;
    duration : Z }.

(** The docker client as the injector uses it: [client.containers.get]. *)
Record Client : Type :=
  { containers_get : string -> result container }.

(** [parse_args] is the outcome of [parser.parse_args()] and [from_env]
    the outcome of [docker.from_env()]. *)
Definition main (parse_args : result Args) (from_env : result Client)
  : io event unit :=
  (args <- lift parse_args ;;
   client <- lift from_env ;;
   for_each (containers args)
     (stress_container (containers_get client) (mode args) (duration args)) ;;
   print PrintLaunched)%io.

(** The commands a run asked a container to execute detached. *)
Fixpoint dispatched (t : list event) : list string :=
  match t with
  | [] => []
  | ExecRun _ c true :: t' => c :: dispatched t'
  | _ :: t' => dispatched t'
  end.

(** Lines 8-13: the value [has_stress_ng] holds after the [try]. *)
Definition has_stress_ng_of (c : container) : bool :=
  match exec_run c "which stress-ng" false with
  | Ok exec_check => exit_code_is_0 exec_check
  | Raise _ => false
  end.

(** The execution requests of a run: each command with its [detach]. *)
Fixpoint requests (t : list event) : list (string * bool) :=
  match t with
  | [] => []
  | ExecRun _ c detach :: t' => (c, detach) :: requests t'
  | _ :: t' => requests t'
  end.

End LoadTest.

(** ** Concrete inputs: the scenarios of the specification *)

Module Scenarios.

Definition sample (pre_cpu cur_cpu pre_sys cur_sys : Z) (cores : list Z)
  (mem_usage mem_limit : Z) : Metrics.Stats :=
  {| Metrics.cpu_stats :=
       {| Metrics.cpu_usage :=
            {| Metrics.total_usage := cur_cpu; Metrics.percpu_usage := cores |};
          Metrics.system_cpu_usage := cur_sys |};
     Metrics.precpu_stats :=
       {| Metrics.cpu_usage :=
            {| Metrics.total_usage := pre_cpu; Metrics.percpu_usage := cores |};
          Metrics.system_cpu_usage := pre_sys |};
     Metrics.memory_stats :=
       {| Metrics.usage := mem_usage; Metrics.limit := mem_limit |} |}.

(** Scenario 1 (CPU) with the memory figures of scenario 2. *)
Definition stats1 : Metrics.Stats :=
  sample 100 150 1000 1200 [0; 0; 0; 0] 700000000 1000000000.

Definition web : Metrics.container :=
  {| Metrics.name := "web"; Metrics.stats := Ok stats1 |}.

(** Scenario 2: idle CPU, memory exactly at the threshold, and one byte
    above it. *)
Definition stats2 : Metrics.Stats :=
  sample 100 100 1000 1200 [0; 0; 0; 0] 700000000 1000000000.

Definition db : Metrics.container :=
  {| Metrics.name := "db"; Metrics.stats := Ok stats2 |}.

Definition stats2' : Metrics.Stats :=
  sample 100 100 1000 1200 [0; 0; 0; 0] 700000001 1000000000.

Definition db' : Metrics.container :=
  {| Metrics.name := "db"; Metrics.stats := Ok stats2' |}.

(** Scenario 5: a memory limit of 0. *)
Definition stats5 : Metrics.Stats :=
  sample 100 150 1000 1200 [0; 0; 0; 0] 4096 0.

Definition unlimited : Metrics.container :=
  {| Metrics.name := "unlimited"; Metrics.stats := Ok stats5 |}.

(** Busy counters, but an empty per-CPU list. *)
Definition stats_no_cores : Metrics.Stats :=
  sample 100 150 1000 1200 [] 700000000 1000000000.

Definition no_cores : Metrics.container :=
  {| Metrics.name := "no-cores"; Metrics.stats := Ok stats_no_cores |}.

(** No memory in use. *)
Definition stats_empty : Metrics.Stats :=
  sample 100 150 1000 1200 [0; 0; 0; 0] 0 1000000000.

Definition empty : Metrics.container :=
  {| Metrics.name := "empty"; Metrics.stats := Ok stats_empty |}.

(** A container whose stats cannot be fetched. *)
Definition gone : Metrics.container :=
  {| Metrics.name := "gone";
     Metrics.stats := Raise (ExternalError "404 Client Error") |}.

(** A server that cannot be reached. *)
Definition smtp_down (_ : string) (_ _ : float) : Metrics.Session :=
  {| Metrics.connect := Raise (ExternalError "Connection refused");
     Metrics.starttls := Ok tt;
     Metrics.login := Ok tt;
     Metrics.send_message := Ok tt;
     Metrics.quit := Ok tt |}.

(** A server that always delivers. *)
Definition smtp_ok (_ : string) (_ _ : float) : Metrics.Session :=
  {| Metrics.connect := Ok tt;
     Metrics.starttls := Ok tt;
     Metrics.login := Ok tt;
     Metrics.send_message := Ok tt;
     Metrics.quit := Ok tt |}.

(** A server that delivers and then answers [QUIT] with a code other than
    221. *)
Definition smtp_bad_quit (_ : string) (_ _ : float) : Metrics.Session :=
  {| Metrics.connect := Ok tt;
     Metrics.starttls := Ok tt;
     Metrics.login := Ok tt;
     Metrics.send_message := Ok tt;
     Metrics.quit := Raise (ExternalError "(421, b'timeout')") |}.

(** A server that refuses the login. *)
Definition smtp_bad_login (_ : string) (_ _ : float) : Metrics.Session :=
  {| Metrics.connect := Ok tt;
     Metrics.starttls := Ok tt;
     Metrics.login := Raise (ExternalError "(535, b'bad credentials')");
     Metrics.send_message := Ok tt;
     Metrics.quit := Ok tt |}.

(** The output of the docker client: bytes when attached, the text of the
    response when detached. *)
Definition sdk_output (detach : bool) (text : string) : LoadTest.Output :=
  if detach then LoadTest.Str text else LoadTest.Bytes [].

(** A container with [stress-ng] installed, whose detached executions
    report no exit code yet. *)
Definition with_tool : LoadTest.container :=
  {| LoadTest.name := "api";
     LoadTest.short_id := "0123456789";
     LoadTest.exec_run := fun cmd detach =>
       Ok {| LoadTest.exit_code := if detach then None else Some 0;
             LoadTest.output := sdk_output detach EmptyString |} |}.

(** A container without [stress-ng]: [which] exits with 1. *)
Definition without_tool : LoadTest.container :=
  {| LoadTest.name := "cache";
     LoadTest.short_id := "abcdef0123";
     LoadTest.exec_run := fun cmd detach =>
       Ok {| LoadTest.exit_code := if detach then None else Some 1;
             LoadTest.output := sdk_output detach EmptyString |} |}.

(** A container whose every execution request fails. *)
Definition broken : LoadTest.container :=
  {| LoadTest.name := "broken";
     LoadTest.short_id := "ffffffffff";
     LoadTest.exec_run := fun cmd detach => Raise (ExternalError "exec failed") |}.

(** A container whose detached executions exit with 127. *)
Definition failing : LoadTest.container :=
  {| LoadTest.name := "failing";
     LoadTest.short_id := "7777777777";
     LoadTest.exec_run := fun cmd detach =>
       Ok {| LoadTest.exit_code := Some (if detach then 127 else 0);
             LoadTest.output := sdk_output detach "exec failed" |} |}.

(** A docker client that knows the four containers above. *)
Definition client (name : string) : result LoadTest.container :=
  if String.eqb name "api" then Ok with_tool
  else if String.eqb name "cache" then Ok without_tool
  else if String.eqb name "broken" then Ok broken
  else if String.eqb name "failing" then Ok failing
  else Raise (ExternalError "No such container").

Definition docker : result LoadTest.Client :=
  Ok {| LoadTest.containers_get := client |}.

(** No docker daemon can be reached. *)
Definition no_daemon {Client : Type} : result Client :=
  Raise (ExternalError "Error while fetching server API version").

(** The command line [-c failing ghost broken api --mode cpu]. *)
Definition argv_four : result LoadTest.Args :=
  Ok {| LoadTest.containers :=
          ["failing"%string; "ghost"%string; "broken"%string; "api"%string];
        LoadTest.mode := "cpu";
        LoadTest.duration := 60 |}.

(** The command line [-c api --mode turbo], which argparse refuses. *)
Definition argv_bad_mode : result LoadTest.Args :=
  Raise (ExternalError "SystemExit: 2").

End Scenarios.

(** ** Laws of [io] *)

Section IoLaws.

Context {E : Type}.

Lemma outcome_print (ev : E) : outcome (print ev) = Ok tt.
Proof. reflexivity. Qed.

Lemma outcome_bind_ok {A B : Type} (m : io E A) (k : A -> io E B) (a : A) :
  outcome m = Ok a -> bind m k = (trace m ++ trace (k a), outcome (k a)).
Proof. intros H. unfold bind. rewrite H. reflexivity. Qed.

Lemma outcome_bind_raise {A B : Type} (m : io E A) (k : A -> io E B) (e : exn) :
  outcome m = Raise e -> bind m k = (trace m, Raise e).
Proof. intros H. unfold bind. rewrite H. reflexivity. Qed.

(** A [try] whose handler cannot raise cannot raise. *)
Lemma try_except_total {A : Type} (body : io E A) (handler : exn -> io E A) :
  (forall e, exists a, outcome (handler e) = Ok a) ->
  exists a, outcome (try_except body handler) = Ok a.
Proof.
  intros Hh. unfold try_except.
  destruct (outcome body) as [a | e] eqn:Hb.
  - exists a. exact Hb.
  - destruct (Hh e) as [a Ha]. exists a. exact Ha.
Qed.

(** A loop whose body cannot raise runs to its end. *)
Lemma for_each_total {A : Type} (body : A -> io E unit) (l : list A) :
  (forall x, outcome (body x) = Ok tt) ->
  outcome (for_each l body) = Ok tt.
Proof.
  intros Hb. induction l as [| x l IH]; [reflexivity |].
  cbn [for_each]. rewrite (outcome_bind_ok _ _ tt (Hb x)). exact IH.
Qed.

(** ... and what it does for an element does not depend on the elements
    before or after it. *)
Lemma for_each_app {A : Type} (body : A -> io E unit) (l1 l2 : list A) :
  (forall x, outcome (body x) = Ok tt) ->
  trace (for_each (l1 ++ l2) body)
  = trace (for_each l1 body) ++ trace (for_each l2 body).
Proof.
  intros Hb. induction l1 as [| x l1 IH]; [reflexivity |].
  cbn [for_each app]. rewrite !(outcome_bind_ok _ _ tt (Hb x)).
  cbn [trace fst]. rewrite <- app_assoc. f_equal. exact IH.
Qed.

Lemma for_each_cons {A : Type} (body : A -> io E unit) (x : A) (l : list A) :
  (forall x, outcome (body x) = Ok tt) ->
  trace (for_each (x :: l) body) = trace (body x) ++ trace (for_each l body).
Proof.
  intros Hb. cbn [for_each]. rewrite (outcome_bind_ok _ _ tt (Hb x)).
  reflexivity.
Qed.

End IoLaws.

Ltac io_unfold :=
  unfold try_except, with_, bind, print, call, lift, ret, trace, outcome;
  simpl.

(** ** Signs of the float operations *)

Module FloatFacts.

Lemma shr_1_nonneg (mrs : shr_record) :
  0 <= shr_m mrs -> 0 <= shr_m (shr_1 mrs).
Proof.
  destruct mrs as [m r s]. cbn [shr_m]. intros Hm. unfold shr_1.
  destruct m as [| [p | p |] | p]; cbn [shr_m]; lia.
Qed.

Lemma iter_shr_1_nonneg (p : positive) (mrs : shr_record) :
  0 <= shr_m mrs -> 0 <= shr_m (iter_pos shr_1 p mrs).
Proof.
  revert mrs. induction p as [p IH | p IH |]; intros mrs Hm; cbn [iter_pos].
  - apply IH, IH, shr_1_nonneg, Hm.
  - apply IH, IH, Hm.
  - apply shr_1_nonneg, Hm.
Qed.

Lemma shr_fexp_nonneg (m e : Z) (l : location) :
  0 <= m -> 0 <= shr_m (fst (shr_fexp prec emax m e l)).
Proof.
  intros Hm. unfold shr_fexp, shr.
  assert (H0 : 0 <= shr_m (shr_record_of_loc m l)).
  { destruct l as [| []]; exact Hm. }
  destruct (fexp prec emax (Zdigits2 m + e) - e) as [| p | p]; cbn [fst];
    try exact H0.
  apply iter_shr_1_nonneg, H0.
Qed.

Lemma round_nearest_even_nonneg (m : Z) (l : location) :
  0 <= m -> 0 <= round_nearest_even m l.
Proof.
  intros Hm. unfold round_nearest_even.
  destruct l as [| []]; try destruct (Z.even m); lia.
Qed.

(** Rounding a non-negative mantissa with a positive sign never gives a
    negative float or a NaN. *)
Lemma binary_round_aux_nonneg (m e : Z) (l : location) :
  0 <= m -> nonnegative (binary_round_aux prec emax false m e l) = true.
Proof.
  intros Hm. unfold binary_round_aux.
  pose proof (shr_fexp_nonneg m e l Hm) as H1.
  destruct (shr_fexp prec emax m e l) as [mrs' e']. cbn [fst] in H1.
  pose proof (shr_fexp_nonneg _ e' loc_Exact
                (round_nearest_even_nonneg _ (loc_of_shr_record mrs') H1))
    as H2.
  destruct (shr_fexp prec emax
              (round_nearest_even (shr_m mrs') (loc_of_shr_record mrs'))
              e' loc_Exact) as [mrs'' e''].
  cbn [fst] in H2.
  destruct (shr_m mrs'') as [| p | p]; [reflexivity | | lia].
  destruct (e'' <=? emax - prec); reflexivity.
Qed.

Lemma binary_normalize_nonneg (z : Z) :
  0 <= z -> nonnegative (binary_normalize prec emax z 0 false) = true.
Proof.
  intros Hz. destruct z as [| p | p]; [reflexivity | | lia].
  unfold binary_normalize, binary_round.
  destruct (shl_align p 0 (fexp prec emax (Z.pos (digits2_pos p) + 0)))
    as [mz ez].
  apply binary_round_aux_nonneg. lia.
Qed.

(** [float(z)] of a non-negative int is a non-negative finite float. *)
Lemma float_of_int_nonneg (z : Z) (f : float) :
  0 <= z -> float_of_int z = Ok f ->
  nonnegative f = true /\ is_finite f = true.
Proof.
  intros Hz. unfold float_of_int.
  pose proof (binary_normalize_nonneg z Hz) as Hn.
  destruct (binary_normalize prec emax z 0 false) as [s | s | | s m e];
    cbn [is_infinity]; try discriminate;
    intros H; injection H as <-; split; try exact Hn; reflexivity.
Qed.

Lemma SFdiv_exact_nonneg (a b : positive) :
  nonnegative (SFdiv prec emax (exact (Zpos a)) (exact (Zpos b))) = true.
Proof.
  cbn [exact SFdiv xorb]. unfold SFdiv_core_binary.
  set (e' := Z.min _ _). set (m' := match 0 - 0 - e' with
                                    | 0 => Z.pos a
                                    | Z.pos _ => Z.shiftl (Z.pos a) (0 - 0 - e')
                                    | Z.neg _ => 0
                                    end).
  assert (Hm' : 0 <= m').
  { subst m'. destruct (0 - 0 - e'); try lia. apply Z.shiftl_nonneg. lia. }
  pose proof (Z_div_mod m' (Z.pos b) ltac:(lia)) as Hd.
  destruct (Z.div_eucl m' (Z.pos b)) as [q r].
  apply binary_round_aux_nonneg. destruct Hd as [Hd Hr]. nia.
Qed.

(** [a / b] of two positive ints is a non-negative finite float. *)
Lemma truediv_pos (a b : Z) (q : float) :
  0 < a -> 0 < b -> truediv a b = Ok q ->
  nonnegative q = true /\ is_finite q = true.
Proof.
  intros Ha Hb. unfold truediv.
  destruct (b =? 0) eqn:Hb0; [apply Z.eqb_eq in Hb0; lia |].
  destruct a as [| a | a]; try lia. destruct b as [| b | b]; try lia.
  pose proof (SFdiv_exact_nonneg a b) as Hn.
  destruct (SFdiv prec emax (exact (Z.pos a)) (exact (Z.pos b)))
    as [s | s | | s m e]; cbn [is_infinity]; try discriminate;
    intros H; injection H as <-; split; try exact Hn; reflexivity.
Qed.

(** [0 / b] with [b] positive is [+0.0]. *)
Lemma truediv_zero (b : Z) : 0 < b -> truediv 0 b = Ok f0_0.
Proof.
  intros Hb. unfold truediv.
  destruct (b =? 0) eqn:Hb0; [apply Z.eqb_eq in Hb0; lia |].
  destruct b as [| b | b]; try lia. reflexivity.
Qed.

(** The product of two non-negative floats of which the second is finite
    and not zero is non-negative; so is the product of two finite ones. *)
Lemma fmul_nonneg_finite (x y : float) :
  nonnegative x = true -> nonnegative y = true ->
  is_finite x = true -> is_finite y = true ->
  nonnegative (fmul x y) = true.
Proof.
  unfold fmul.
  destruct x as [sx | sx | | sx mx ex], y as [sy | sy | | sy my ey];
    cbn [nonnegative is_finite SFmul]; try discriminate;
    intros Hx Hy _ _;
    apply negb_true_iff in Hx; apply negb_true_iff in Hy; subst;
    try reflexivity.
  apply binary_round_aux_nonneg. lia.
Qed.

Lemma fmul_nonneg_100 (x : float) :
  nonnegative x = true -> nonnegative (fmul x f100_0) = true.
Proof.
  unfold fmul, f100_0.
  destruct x as [sx | sx | | sx mx ex]; cbn [nonnegative SFmul];
    try discriminate; intros Hx; apply negb_true_iff in Hx; subst;
    try reflexivity.
  apply binary_round_aux_nonneg. lia.
Qed.

Lemma fmul_zero_r (x : float) :
  nonnegative x = true -> is_finite x = true -> fmul x f0_0 = f0_0.
Proof.
  unfold fmul, f0_0.
  destruct x as [sx | sx | | sx mx ex]; cbn [nonnegative is_finite SFmul];
    try discriminate; intros Hx _; apply negb_true_iff in Hx; subst;
    reflexivity.
Qed.

(** A non-negative float is not below zero. *)
Lemma nonnegative_not_lt_0 (x : float) :
  nonnegative x = true -> fgt f0_0 x = false.
Proof.
  unfold fgt, f0_0, SFltb.
  destruct x as [sx | sx | | sx mx ex]; cbn [nonnegative SFcompare];
    try discriminate; intros Hx; apply negb_true_iff in Hx; subst;
    reflexivity.
Qed.

End FloatFacts.


(** ** Properties of the monitor *)

Module MetricsSpec.

Import Metrics.

(** True division on small cases: an exact quotient, a rounded one (1/3 is
    6004799503160661 * 2^-54), the sign of a zero, and the two errors. *)
Example truediv_exact :
  truediv 50 200 = Ok (S754_finite false 4503599627370496 (-54)).
Proof. reflexivity. Qed.

Example truediv_rounded :
  truediv 1 3 = Ok (S754_finite false 6004799503160661 (-54)).
Proof. reflexivity. Qed.

Example truediv_negative_zero : truediv 0 (-5) = Ok (S754_zero true).
Proof. reflexivity. Qed.

Example truediv_by_zero : truediv 4096 0 = Raise ZeroDivisionError.
Proof. reflexivity. Qed.

Example truediv_overflow : truediv (2 ^ 1024) 1 = Raise OverflowError.
Proof. vm_compute. reflexivity. Qed.

(** [get_container_stats] returns exactly the two locals. *)
Lemma get_container_stats_ok (c : container) (s : Stats) (cpu mem : float) :
  stats c = Ok s ->
  get_container_stats c = Ok (cpu, mem)
  <-> cpu_percent s = Ok cpu /\ mem_percent s = Ok mem.
Proof.
  intros Hs. unfold get_container_stats. rewrite Hs. simpl.
  destruct (cpu_percent s) as [cpu' | e]; simpl.
  - destruct (mem_percent s) as [mem' | e]; simpl.
    + split.
      * intros H. injection H as -> ->. split; reflexivity.
      * intros [H1 H2]. injection H1 as ->. injection H2 as ->. reflexivity.
    + split; [discriminate | intros [_ H]; discriminate].
  - split; [discriminate | intros [H _]; discriminate].
Qed.

Lemma guard_true (s : Stats) :
  0 < system_delta s -> 0 < cpu_delta s ->
  (0 <? system_delta s) && (0 <? cpu_delta s) = true.
Proof.
  intros H1 H2. apply andb_true_iff. split; apply Z.ltb_lt; assumption.
Qed.

Lemma guard_false (s : Stats) :
  system_delta s <= 0 \/ cpu_delta s <= 0 ->
  (0 <? system_delta s) && (0 <? cpu_delta s) = false.
Proof.
  intros H. apply andb_false_iff.
  destruct H as [H | H]; [left | right]; apply Z.ltb_ge; exact H.
Qed.

(** C1. For a stats sample [s], the CPU utilization computed by
    [get_container_stats] is [(cpu_delta / system_delta) * cores * 100.0]
    when [system_delta > 0] and [cpu_delta > 0], where the two deltas are
    the differences of the current and the previous counters; it is exactly
    [0.0] when [system_delta <= 0] or [cpu_delta <= 0]. *)
Theorem cpu_utilization_formula (c : container) (s : Stats) :
  stats c = Ok s ->
  cpu_delta s
  = total_usage (cpu_usage (cpu_stats s))
    - total_usage (cpu_usage (precpu_stats s)) /\
  system_delta s
  = system_cpu_usage (cpu_stats s) - system_cpu_usage (precpu_stats s) /\
  (0 < system_delta s -> 0 < cpu_delta s ->
   cpu_percent s
   = (q <- truediv (cpu_delta s) (system_delta s) ;;
      n <- float_of_int (len (percpu_usage (cpu_usage (cpu_stats s)))) ;;
      Ok (fmul (fmul q n) f100_0))%result) /\
  (system_delta s <= 0 \/ cpu_delta s <= 0 -> cpu_percent s = Ok f0_0) /\
  (forall cpu mem,
     get_container_stats c = Ok (cpu, mem)
     <-> cpu_percent s = Ok cpu /\ mem_percent s = Ok mem).
Proof.
  intros Hs.
  split; [reflexivity |]. split; [reflexivity |].
  split; [| split].
  - intros H1 H2. unfold cpu_percent. rewrite guard_true by assumption.
    reflexivity.
  - intros H. unfold cpu_percent. rewrite guard_false by assumption.
    reflexivity.
  - intros cpu mem. apply get_container_stats_ok. exact Hs.
Qed.

(** Scenario 1: deltas 50 and 200 on 4 cores give 100.0. *)
Lemma cpu_utilization_formula_witness :
  stats Scenarios.web = Ok Scenarios.stats1 /\
  get_container_stats Scenarios.web = Ok (f100_0, f70_0).
Proof.
  split; [reflexivity |].
  apply (proj2 (proj2 (proj2 (proj2
    (cpu_utilization_formula Scenarios.web Scenarios.stats1 eq_refl))))).
  split; vm_compute; reflexivity.
Defined.

Example cpu_percent_idle :
  cpu_percent Scenarios.stats2 = Ok f0_0.
Proof. reflexivity. Qed.

(** [send_email_alert] catches what the transport raises. *)
Lemma send_email_alert_total smtp (n : string) (cpu mem : float) :
  outcome (send_email_alert smtp n cpu mem) = Ok tt.
Proof.
  unfold send_email_alert.
  destruct (smtp n cpu mem)
    as [[[] | e1] [[] | e2] [[] | e3] [[] | e4] [[] | e5]]; reflexivity.
Qed.

Lemma notifications_send_email_alert smtp (n : string) (cpu mem : float) :
  notifications (trace (send_email_alert smtp n cpu mem)) = [(n, cpu, mem)].
Proof.
  unfold send_email_alert.
  destruct (smtp n cpu mem)
    as [[[] | e1] [[] | e2] [[] | e3] [[] | e4] [[] | e5]]; reflexivity.
Qed.

(** The loop body catches every exception. *)
Lemma monitor_container_total smtp (c : container) :
  outcome (monitor_container smtp c) = Ok tt.
Proof.
  unfold monitor_container.
  destruct (get_container_stats c) as [[cpu mem] | e]; [| reflexivity].
  destruct (fgt cpu CPU_THRESHOLD || fgt mem MEM_THRESHOLD) eqn:Ha.
  - pose proof (send_email_alert_total smtp (name c) cpu mem) as Hs.
    io_unfold. rewrite Ha. unfold outcome in Hs. rewrite Hs. reflexivity.
  - io_unfold. rewrite Ha. reflexivity.
Qed.

Lemma monitor_container_ok smtp (c : container) (cpu mem : float) :
  get_container_stats c = Ok (cpu, mem) ->
  trace (monitor_container smtp c)
  = [PrintContainer (name c); PrintCPU cpu; PrintMemory mem] ++
    (if fgt cpu CPU_THRESHOLD || fgt mem MEM_THRESHOLD
     then trace (send_email_alert smtp (name c) cpu mem)
     else [PrintHealthy]).
Proof.
  intros H. unfold monitor_container. rewrite H.
  destruct (fgt cpu CPU_THRESHOLD || fgt mem MEM_THRESHOLD) eqn:Ha.
  - pose proof (send_email_alert_total smtp (name c) cpu mem) as Hs.
    io_unfold. rewrite Ha. unfold outcome in Hs. rewrite Hs. reflexivity.
  - io_unfold. rewrite Ha. reflexivity.
Qed.

Lemma monitor_container_raise smtp (c : container) (e : exn) :
  get_container_stats c = Raise e ->
  monitor_container smtp c = ([PrintErrorFetchingStats (name c) e], Ok tt).
Proof.
  intros H. unfold monitor_container. rewrite H. reflexivity.
Qed.

(** C2. For a utilization result [(cpu, mem)], the monitor hands a
    notification to the transport if and only if [cpu > CPU_THRESHOLD] or
    [mem > MEM_THRESHOLD]; the comparison is strict: a value equal to its
    threshold does not alert by itself, a value above it always does. *)
Theorem alert_iff_above_threshold smtp (c : container) (cpu mem : float) :
  get_container_stats c = Ok (cpu, mem) ->
  let sent := notifications (trace (monitor_container smtp c)) in
  (sent = [(name c, cpu, mem)]
   <-> fgt cpu CPU_THRESHOLD = true \/ fgt mem MEM_THRESHOLD = true) /\
  (sent = []
   <-> fgt cpu CPU_THRESHOLD = false /\ fgt mem MEM_THRESHOLD = false) /\
  (cpu = CPU_THRESHOLD -> fgt cpu CPU_THRESHOLD = false) /\
  (mem = MEM_THRESHOLD -> fgt mem MEM_THRESHOLD = false).
Proof.
  intros H sent. subst sent. rewrite (monitor_container_ok smtp c cpu mem H).
  cbn [app notifications].
  split; [| split; [| split; intros ->; reflexivity]].
  - destruct (fgt cpu CPU_THRESHOLD), (fgt mem MEM_THRESHOLD); cbn [orb];
      rewrite ?notifications_send_email_alert; cbn [notifications];
      split; intros Hx; try reflexivity; try discriminate; try tauto.
    destruct Hx; discriminate.
  - destruct (fgt cpu CPU_THRESHOLD), (fgt mem MEM_THRESHOLD); cbn [orb];
      rewrite ?notifications_send_email_alert; cbn [notifications];
      split; intros Hx; try discriminate; try tauto;
      destruct Hx; discriminate.
Qed.

(** Scenario 2: memory at exactly 70.0 does not alert. *)
Lemma alert_iff_above_threshold_witness :
  get_container_stats Scenarios.db = Ok (f0_0, f70_0) /\
  notifications (trace (monitor_container Scenarios.smtp_ok Scenarios.db)) = [].
Proof.
  split; [vm_compute; reflexivity |].
  apply (proj1 (proj2 (alert_iff_above_threshold Scenarios.smtp_ok
                         Scenarios.db f0_0 f70_0 eq_refl))).
  split; reflexivity.
Defined.

(** Scenario 2, one byte more: the monitor alerts. *)
Example alert_one_byte_above :
  exists mem,
    get_container_stats Scenarios.db' = Ok (f0_0, mem) /\
    fgt mem MEM_THRESHOLD = true /\
    notifications (trace (monitor_container Scenarios.smtp_ok Scenarios.db'))
    = [("db"%string, f0_0, mem)].
Proof.
  eexists. split; [vm_compute; reflexivity |].
  split; vm_compute; reflexivity.
Qed.

(** Once the daemon has listed the containers, a pass is the loop over
    them. *)
Lemma monitor_containers_listing smtp (containers : list container) :
  monitor_containers smtp (listing containers)
  = for_each containers (monitor_container smtp).
Proof.
  unfold monitor_containers, listing, bind, lift, trace, outcome.
  cbn [fst snd containers_list app].
  destruct (for_each containers (monitor_container smtp)); reflexivity.
Qed.

(** A zero memory limit makes the memory division raise. *)
Lemma mem_percent_zero_limit (s : Stats) :
  limit (memory_stats s) = 0 -> mem_percent s = Raise ZeroDivisionError.
Proof. intros H. unfold mem_percent, truediv. rewrite H. reflexivity. Qed.

(** C3. A container whose memory limit is 0 makes [get_container_stats]
    raise (the division by the limit is unguarded); the monitor reports the
    fetch error for that container, does nothing else for it, and processes
    the containers after it as it would without it. *)
Theorem zero_memory_limit_is_fetch_error smtp (c : container) (s : Stats) :
  stats c = Ok s ->
  limit (memory_stats s) = 0 ->
  exists e,
    get_container_stats c = Raise e /\
    (forall cpu, cpu_percent s = Ok cpu -> e = ZeroDivisionError) /\
    monitor_container smtp c = ([PrintErrorFetchingStats (name c) e], Ok tt) /\
    forall before after,
      outcome (monitor_containers smtp (listing (before ++ c :: after)))
      = Ok tt /\
      trace (monitor_containers smtp (listing (before ++ c :: after)))
      = trace (monitor_containers smtp (listing before))
        ++ PrintErrorFetchingStats (name c) e
        :: trace (monitor_containers smtp (listing after)).
Proof.
  intros Hs Hl.
  assert (Hget : exists e, get_container_stats c = Raise e /\
             (forall cpu, cpu_percent s = Ok cpu -> e = ZeroDivisionError)).
  { unfold get_container_stats. rewrite Hs. cbn [rbind].
    destruct (cpu_percent s) as [cpu | e]; cbn [rbind].
    - rewrite (mem_percent_zero_limit s Hl). exists ZeroDivisionError.
      split; reflexivity.
    - exists e. split; [reflexivity | discriminate]. }
  destruct Hget as [e [Hget He]]. exists e.
  split; [exact Hget |]. split; [exact He |].
  pose proof (monitor_container_raise smtp c e Hget) as Hc.
  split; [exact Hc |].
  intros before after. rewrite !monitor_containers_listing. split.
  - apply for_each_total. apply monitor_container_total.
  - rewrite for_each_app by apply monitor_container_total.
    rewrite for_each_cons by apply monitor_container_total.
    rewrite Hc. reflexivity.
Qed.

(** Scenario 5: the container between two healthy ones is reported and the
    other two are processed. *)
Lemma zero_memory_limit_is_fetch_error_witness :
  stats Scenarios.unlimited = Ok Scenarios.stats5 /\
  limit (memory_stats Scenarios.stats5) = 0 /\
  monitor_containers Scenarios.smtp_ok
    (listing [Scenarios.db; Scenarios.unlimited; Scenarios.db])
  = ([PrintContainer "db"; PrintCPU f0_0; PrintMemory f70_0; PrintHealthy;
      PrintErrorFetchingStats "unlimited" ZeroDivisionError;
      PrintContainer "db"; PrintCPU f0_0; PrintMemory f70_0; PrintHealthy],
     Ok tt).
Proof.
  split; [reflexivity |]. split; [reflexivity |].
  destruct (zero_memory_limit_is_fetch_error Scenarios.smtp_ok
              Scenarios.unlimited Scenarios.stats5 eq_refl eq_refl)
    as [e [_ [He [_ Hloop]]]].
  destruct (Hloop [Scenarios.db] [Scenarios.db]) as [Ho Ht].
  rewrite (He _ eq_refl) in Ht.
  rewrite (surjective_pairing (monitor_containers _ _)).
  unfold trace in Ht. unfold outcome in Ho. cbn [app] in Ht, Ho.
  rewrite Ht, Ho. vm_compute. reflexivity.
Defined.

End MetricsSpec.

(** ** Properties of the load injector *)

Module LoadTestSpec.

Import LoadTest.

Local Open Scope string_scope.
Local Open Scope list_scope.

Lemma int_str (z : Z) : int (str z) = Some z.
Proof.
  unfold int, str.
  destruct (Z.to_int z) as [u | u] eqn:Hz;
    destruct u as [| u | u | u | u | u | u | u | u | u | u];
    try (rewrite NilZero.isi by discriminate; cbn [option_map];
         rewrite <- Hz, DecimalZ.of_to; reflexivity).
  - rewrite NilZero.isi_posnil. cbn [option_map].
    rewrite <- (DecimalZ.of_to z), Hz. reflexivity.
  - rewrite NilZero.isi_negnil. cbn [option_map].
    rewrite <- (DecimalZ.of_to z), Hz. reflexivity.
Qed.

(** *** The capability probe *)

Lemma check_stress_ng_ok (c : container) (r : ExecResult) :
  exec_run c "which stress-ng" false = Ok r ->
  check_stress_ng c
  = ([ExecRun (name c) "which stress-ng" false], Ok (exit_code_is_0 r)).
Proof. intros H. unfold check_stress_ng. io_unfold. rewrite H. reflexivity. Qed.

Lemma check_stress_ng_raise (c : container) (e : exn) :
  exec_run c "which stress-ng" false = Raise e ->
  check_stress_ng c
  = ([ExecRun (name c) "which stress-ng" false; PrintCouldNotCheck (name c) e],
     Ok false).
Proof. intros H. unfold check_stress_ng. io_unfold. rewrite H. reflexivity. Qed.

Lemma exit_code_is_0_iff (r : ExecResult) :
  exit_code_is_0 r = true <-> exit_code r = Some 0.
Proof.
  unfold exit_code_is_0. destruct (exit_code r) as [z |].
  - rewrite Z.eqb_eq. split; [intros -> | intros H; injection H as ->];
      reflexivity.
  - split; discriminate.
Qed.

Lemma check_stress_ng_total (c : container) :
  exists b, outcome (check_stress_ng c) = Ok b /\
            dispatched (trace (check_stress_ng c)) = [].
Proof.
  destruct (exec_run c "which stress-ng" false) as [r | e] eqn:H.
  - rewrite (check_stress_ng_ok c r H). eexists. split; reflexivity.
  - rewrite (check_stress_ng_raise c e H). eexists. split; reflexivity.
Qed.

(** C6. The probe always ends with a boolean and never with an exception:
    when the lookup of the tool could be executed, the boolean is true
    exactly when its exit code is 0; when the execution raised, it is
    false. *)
Theorem probe_degrades_to_false (c : container) :
  exists has_stress_ng : bool,
    outcome (check_stress_ng c) = Ok has_stress_ng /\
    (forall r, exec_run c "which stress-ng" false = Ok r ->
               (has_stress_ng = true <-> exit_code r = Some 0)) /\
    (forall e, exec_run c "which stress-ng" false = Raise e ->
               has_stress_ng = false).
Proof.
  destruct (exec_run c "which stress-ng" false) as [r | e] eqn:H.
  - rewrite (check_stress_ng_ok c r H). exists (exit_code_is_0 r).
    split; [reflexivity |]. split.
    + intros r' Hr. injection Hr as <-. apply exit_code_is_0_iff.
    + discriminate.
  - rewrite (check_stress_ng_raise c e H). exists false.
    split; [reflexivity |]. split; [discriminate | reflexivity].
Qed.

Example probe_with_tool :
  outcome (check_stress_ng Scenarios.with_tool) = Ok true.
Proof. reflexivity. Qed.

Example probe_without_tool :
  outcome (check_stress_ng Scenarios.without_tool) = Ok false.
Proof. reflexivity. Qed.

Example probe_broken :
  check_stress_ng Scenarios.broken
  = ([ExecRun "broken" "which stress-ng" false;
      PrintCouldNotCheck "broken" (ExternalError "exec failed")], Ok false).
Proof. reflexivity. Qed.

(** *** The dispatcher *)

Lemma dispatch_ok (c : container) (command : string) (r : ExecResult) :
  exec_run c command true = Ok r ->
  dispatch c command
  = ([ExecRun (name c) command true;
      if exit_code_not_in_0_None r
      then match decode (output r) with
           | Ok out => PrintFailedOutput (name c) out
           | Raise e => PrintFailed (name c) e
           end
      else PrintExecuted (name c)], Ok tt).
Proof.
  intros H. unfold dispatch. io_unfold. rewrite H. simpl.
  destruct (exit_code_not_in_0_None r); [| reflexivity].
  destruct (decode (output r)); reflexivity.
Qed.

Lemma dispatch_raise (c : container) (command : string) (e : exn) :
  exec_run c command true = Raise e ->
  dispatch c command
  = ([ExecRun (name c) command true; PrintFailed (name c) e], Ok tt).
Proof. intros H. unfold dispatch. io_unfold. rewrite H. reflexivity. Qed.

Lemma dispatch_total (c : container) (command : string) :
  outcome (dispatch c command) = Ok tt /\
  dispatched (trace (dispatch c command)) = [command].
Proof.
  destruct (exec_run c command true) as [r | e] eqn:H.
  - rewrite (dispatch_ok c command r H).
    destruct (exit_code_not_in_0_None r); [| split; reflexivity].
    destruct (decode (output r)); split; reflexivity.
  - rewrite (dispatch_raise c command e H). split; reflexivity.
Qed.

Lemma exit_code_not_in_0_None_false (r : ExecResult) :
  exit_code_not_in_0_None r = false
  <-> exit_code r = Some 0 \/ exit_code r = None.
Proof.
  unfold exit_code_not_in_0_None. destruct (exit_code r) as [z |].
  - rewrite negb_false_iff, Z.eqb_eq. split.
    + intros ->. left. reflexivity.
    + intros [H | H]; [injection H as ->; reflexivity | discriminate].
  - split; [right; reflexivity | reflexivity].
Qed.

(** *** [run_stress] *)

Lemma dispatched_app (t1 t2 : list event) :
  dispatched (t1 ++ t2) = dispatched t1 ++ dispatched t2.
Proof.
  induction t1 as [| ev t1 IH]; [reflexivity |].
  destruct ev as [n c [] | | | | | | | | | |]; simpl; rewrite IH; reflexivity.
Qed.

(** [run_stress] is the probe, two prints and the dispatch of the selected
    command. *)
Lemma run_stress_eq (c : container) (mode : string) (duration : Z) (b : bool) :
  outcome (check_stress_ng c) = Ok b ->
  run_stress c mode duration
  = (trace (check_stress_ng c)
     ++ (if b then PrintFound (name c) else PrintNotFound (name c))
     :: PrintStarting mode (name c) duration
     :: trace (dispatch c (cmd b mode duration)),
     Ok tt).
Proof.
  intros Hb. unfold run_stress.
  rewrite (outcome_bind_ok _ _ b Hb).
  destruct (dispatch_total c (cmd b mode duration)) as [Hd _].
  io_unfold. unfold outcome in Hd. rewrite Hd. reflexivity.
Qed.

Lemma run_stress_total (c : container) (mode : string) (duration : Z) :
  outcome (run_stress c mode duration) = Ok tt.
Proof.
  destruct (check_stress_ng_total c) as [b [Hb _]].
  rewrite (run_stress_eq c mode duration b Hb). reflexivity.
Qed.

Lemma run_stress_dispatched (c : container) (mode : string) (duration : Z)
  (b : bool) :
  outcome (check_stress_ng c) = Ok b ->
  dispatched (trace (run_stress c mode duration)) = [cmd b mode duration].
Proof.
  intros Hb. rewrite (run_stress_eq c mode duration b Hb).
  destruct (check_stress_ng_total c) as [b' [_ Hp]].
  destruct (dispatch_total c (cmd b mode duration)) as [_ Hd].
  cbn [trace fst]. rewrite dispatched_app, Hp.
  destruct b; cbn [app dispatched]; exact Hd.
Qed.

(** *** Command selection *)

(** C4. With the tool present, the command executed is the tool's, with the
    flags of the mode: 4 CPU workers in CPU mode, 2 memory workers at 90%
    in MEMORY mode, both sets of flags in BOTH mode, and in each mode a
    timeout that is the duration. *)
Theorem stress_ng_command (c : container) (duration : Z) :
  outcome (check_stress_ng c) = Ok true ->
  dispatched (trace (run_stress c "cpu" duration))
  = [("stress-ng --cpu 4 --timeout " ++ str duration)%string] /\
  dispatched (trace (run_stress c "mem" duration))
  = [("stress-ng --vm 2 --vm-bytes 90% --timeout " ++ str duration)%string] /\
  dispatched (trace (run_stress c "both" duration))
  = [("stress-ng --cpu 4 --vm 2 --vm-bytes 90% --timeout " ++ str duration)%string] /\
  int (str duration) = Some duration.
Proof.
  intros Hb.
  rewrite !(run_stress_dispatched c _ duration true Hb).
  repeat split. apply int_str.
Qed.

(** Scenario 3. *)
Lemma stress_ng_command_witness :
  outcome (check_stress_ng Scenarios.with_tool) = Ok true /\
  dispatched (trace (run_stress Scenarios.with_tool "both" 30))
  = ["stress-ng --cpu 4 --vm 2 --vm-bytes 90% --timeout 30"].
Proof.
  split; [reflexivity |].
  exact (proj1 (proj2 (proj2
    (stress_ng_command Scenarios.with_tool 30 eq_refl)))).
Defined.

Lemma python_loops_differ : python_cpu_loop <> python_mem_loop.
Proof. discriminate. Qed.

(** C5. Without the tool, BOTH mode selects the very command of CPU mode,
    the CPU-only interpreter loop, and nothing of the memory loop. *)
Theorem fallback_both_is_cpu (duration : Z) :
  cmd false "both" duration = cmd false "cpu" duration /\
  cmd false "both" duration = python_cpu_loop /\
  cmd false "both" duration <> cmd false "mem" duration /\
  forall c : container,
    outcome (check_stress_ng c) = Ok false ->
    dispatched (trace (run_stress c "both" duration))
    = dispatched (trace (run_stress c "cpu" duration)).
Proof.
  split; [reflexivity |]. split; [reflexivity |].
  split; [exact python_loops_differ |].
  intros c Hb. rewrite !(run_stress_dispatched c _ duration false Hb).
  reflexivity.
Qed.

(** C8. Without the tool, the command of MEMORY mode is the unbounded
    appending loop whatever the duration. *)
Theorem fallback_mem_ignores_duration (d1 d2 : Z) :
  cmd false "mem" d1 = cmd false "mem" d2 /\
  cmd false "mem" d1 = python_mem_loop /\
  forall c : container,
    outcome (check_stress_ng c) = Ok false ->
    dispatched (trace (run_stress c "mem" d1))
    = dispatched (trace (run_stress c "mem" d2)).
Proof.
  split; [reflexivity |]. split; [reflexivity |].
  intros c Hb.
  rewrite (run_stress_dispatched c _ d1 false Hb).
  rewrite (run_stress_dispatched c _ d2 false Hb).
  reflexivity.
Qed.

Example fallback_mem_scenario4 :
  dispatched (trace (run_stress Scenarios.without_tool "mem" 30))
  = [python_mem_loop] /\
  dispatched (trace (run_stress Scenarios.without_tool "mem" 600))
  = [python_mem_loop].
Proof. split; reflexivity. Qed.

(** C9. The command executed is determined by the mode, the duration and
    the outcome of the probe: two runs that agree on the three execute the
    same command, whatever else differs between the two containers. *)
Theorem command_deterministic (c1 c2 : container) (mode : string)
  (duration : Z) (has_stress_ng : bool) :
  outcome (check_stress_ng c1) = Ok has_stress_ng ->
  outcome (check_stress_ng c2) = Ok has_stress_ng ->
  dispatched (trace (run_stress c1 mode duration))
  = dispatched (trace (run_stress c2 mode duration)) /\
  dispatched (trace (run_stress c1 mode duration))
  = [cmd has_stress_ng mode duration].
Proof.
  intros H1 H2.
  rewrite (run_stress_dispatched c1 mode duration has_stress_ng H1).
  rewrite (run_stress_dispatched c2 mode duration has_stress_ng H2).
  split; reflexivity.
Qed.

Lemma command_deterministic_witness :
  outcome (check_stress_ng Scenarios.with_tool) = Ok true /\
  outcome (check_stress_ng Scenarios.failing) = Ok true /\
  dispatched (trace (run_stress Scenarios.with_tool "mem" 45))
  = dispatched (trace (run_stress Scenarios.failing "mem" 45)).
Proof.
  split; [reflexivity |]. split; [reflexivity |].
  exact (proj1 (command_deterministic Scenarios.with_tool Scenarios.failing
                  "mem" 45 true eq_refl eq_refl)).
Defined.

(** C10. A mode that is neither ["cpu"] nor ["mem"] is treated as BOTH:
    the combined tool command with the tool, the CPU-only interpreter loop
    without it; [run_stress] does not reject it and executes that
    command. *)
Theorem unrecognized_mode_as_both (mode : string) (duration : Z) :
  mode <> "cpu"%string ->
  mode <> "mem"%string ->
  (forall has_stress_ng : bool,
     cmd has_stress_ng mode duration = cmd has_stress_ng "both" duration) /\
  cmd true mode duration
  = ("stress-ng --cpu 4 --vm 2 --vm-bytes 90% --timeout " ++ str duration)%string /\
  cmd false mode duration = python_cpu_loop /\
  forall c : container,
    outcome (run_stress c mode duration) = Ok tt /\
    dispatched (trace (run_stress c mode duration))
    = dispatched (trace (run_stress c "both" duration)).
Proof.
  intros Hcpu Hmem.
  apply String.eqb_neq in Hcpu. apply String.eqb_neq in Hmem.
  assert (Hcmd : forall b, cmd b mode duration = cmd b "both" duration).
  { intros b. unfold cmd. rewrite Hcpu, Hmem. reflexivity. }
  split; [exact Hcmd |].
  split; [rewrite Hcmd; reflexivity |].
  split; [rewrite Hcmd; reflexivity |].
  intros c. split; [apply run_stress_total |].
  destruct (check_stress_ng_total c) as [b [Hb _]].
  rewrite !(run_stress_dispatched c _ duration b Hb).
  rewrite Hcmd. reflexivity.
Qed.

Lemma unrecognized_mode_as_both_witness :
  "turbo"%string <> "cpu"%string /\
  "turbo"%string <> "mem"%string /\
  cmd true "turbo" 30
  = "stress-ng --cpu 4 --vm 2 --vm-bytes 90% --timeout 30"%string /\
  cmd false "turbo" 30 = python_cpu_loop.
Proof.
  split; [discriminate |]. split; [discriminate |].
  pose proof (unrecognized_mode_as_both "turbo" 30
                ltac:(discriminate) ltac:(discriminate)) as [_ [Ht [Hf _]]].
  split; [exact Ht | exact Hf].
Defined.

(** *** Dispatch and the loop of [main] *)

(** The loop body catches every exception. *)
Lemma stress_container_total get (mode : string) (duration : Z) (n : string) :
  outcome (stress_container get mode duration n) = Ok tt.
Proof.
  unfold stress_container.
  destruct (get n) as [c | e]; [| reflexivity].
  pose proof (run_stress_total c mode duration) as Hr.
  io_unfold. unfold outcome in Hr. rewrite Hr. reflexivity.
Qed.

Lemma exit_code_not_in_0_None_true (r : ExecResult) (z : Z) :
  exit_code r = Some z -> z <> 0 -> exit_code_not_in_0_None r = true.
Proof.
  intros Hz Hnz. unfold exit_code_not_in_0_None. rewrite Hz.
  apply Z.eqb_neq in Hnz. rewrite Hnz. reflexivity.
Qed.

(** C7. The failure report loses the captured output.  When the detached
    execution returns an exit code other than 0 with the [str] that the
    docker client gives for a detached execution, line 37 raises
    [AttributeError] on [.decode]; the [except] of line 40 reports the
    failure with that exception, and the run never prints the captured
    output. *)
Theorem failure_report_loses_output (c : container) (mode : string)
  (duration : Z) (has_stress_ng : bool) (r : ExecResult) (z : Z)
  (text : string) :
  outcome (check_stress_ng c) = Ok has_stress_ng ->
  exec_run c (cmd has_stress_ng mode duration) true = Ok r ->
  exit_code r = Some z ->
  z <> 0 ->
  output r = Str text ->
  trace (dispatch c (cmd has_stress_ng mode duration))
  = [ExecRun (name c) (cmd has_stress_ng mode duration) true;
     PrintFailed (name c) AttributeError] /\
  (forall n out,
     ~ In (PrintFailedOutput n out) (trace (run_stress c mode duration))) /\
  outcome (run_stress c mode duration) = Ok tt.
Proof.
  intros Hb Hr Hz Hnz Hout.
  assert (Hd : dispatch c (cmd has_stress_ng mode duration)
               = ([ExecRun (name c) (cmd has_stress_ng mode duration) true;
                   PrintFailed (name c) AttributeError], Ok tt)).
  { rewrite (dispatch_ok c _ r Hr).
    rewrite (exit_code_not_in_0_None_true r z Hz Hnz), Hout. reflexivity. }
  split; [rewrite Hd; reflexivity |].
  split; [| apply run_stress_total].
  intros n out. rewrite (run_stress_eq c mode duration has_stress_ng Hb).
  rewrite Hd. cbn [trace fst].
  destruct (exec_run c "which stress-ng" false) as [r' | e] eqn:Hp.
  - rewrite (check_stress_ng_ok c r' Hp). cbn [fst app].
    intros [H | [H | [H | [H | [H | []]]]]];
      try discriminate; destruct has_stress_ng; discriminate.
  - rewrite (check_stress_ng_raise c e Hp). cbn [fst app].
    intros [H | [H | [H | [H | [H | [H | []]]]]]];
      try discriminate; destruct has_stress_ng; discriminate.
Qed.

(** The container whose detached execution exits with 127. *)
Lemma failure_report_loses_output_witness :
  outcome (check_stress_ng Scenarios.failing) = Ok true /\
  exec_run Scenarios.failing (cmd true "cpu" 60) true
  = Ok {| exit_code := Some 127; output := Str "exec failed" |} /\
  run_stress Scenarios.failing "cpu" 60
  = ([ExecRun "failing" "which stress-ng" false;
      PrintFound "failing";
      PrintStarting "cpu" "failing" 60;
      ExecRun "failing" "stress-ng --cpu 4 --timeout 60" true;
      PrintFailed "failing" AttributeError], Ok tt) /\
  forall n out,
    ~ In (PrintFailedOutput n out)
         (trace (run_stress Scenarios.failing "cpu" 60)).
Proof.
  split; [reflexivity |]. split; [reflexivity |].
  split; [vm_compute; reflexivity |].
  apply (failure_report_loses_output Scenarios.failing "cpu" 60 true
           {| exit_code := Some 127; output := Str "exec failed" |} 127
           "exec failed" eq_refl eq_refl eq_refl ltac:(discriminate) eq_refl).
Defined.

(** A failing request, an unknown name and a raising container do not keep
    the last container from being stressed. *)
Example main_isolates_failures :
  main Scenarios.argv_four Scenarios.docker
  = ([PrintTarget "failing" "7777777777";
      ExecRun "failing" "which stress-ng" false;
      PrintFound "failing";
      PrintStarting "cpu" "failing" 60;
      ExecRun "failing" "stress-ng --cpu 4 --timeout 60" true;
      PrintFailed "failing" AttributeError;
      PrintCouldNotAccess "ghost" (ExternalError "No such container");
      PrintTarget "broken" "ffffffffff";
      ExecRun "broken" "which stress-ng" false;
      PrintCouldNotCheck "broken" (ExternalError "exec failed");
      PrintNotFound "broken";
      PrintStarting "cpu" "broken" 60;
      ExecRun "broken" python_cpu_loop true;
      PrintFailed "broken" (ExternalError "exec failed");
      PrintTarget "api" "0123456789";
      ExecRun "api" "which stress-ng" false;
      PrintFound "api";
      PrintStarting "cpu" "api" 60;
      ExecRun "api" "stress-ng --cpu 4 --timeout 60" true;
      PrintExecuted "api";
      PrintLaunched], Ok tt).
Proof. vm_compute. reflexivity. Qed.

End LoadTestSpec.

(** ** Further properties of the monitor *)

Module MetricsProps.

Import Metrics FloatFacts.

(** The CPU computation yields a non-negative float. *)
Lemma cpu_percent_nonneg (s : Stats) (cpu : float) :
  cpu_percent s = Ok cpu -> nonnegative cpu = true.
Proof.
  unfold cpu_percent.
  destruct ((0 <? system_delta s) && (0 <? cpu_delta s)) eqn:Hg.
  - apply andb_true_iff in Hg. destruct Hg as [Hs Hc].
    apply Z.ltb_lt in Hs. apply Z.ltb_lt in Hc.
    destruct (truediv (cpu_delta s) (system_delta s)) as [q | e] eqn:Hq;
      cbn [rbind]; [| discriminate].
    destruct (float_of_int (len (percpu_usage (cpu_usage (cpu_stats s)))))
      as [n | e] eqn:Hn; cbn [rbind]; [| discriminate].
    intros H. injection H as <-.
    destruct (truediv_pos _ _ q Hc Hs Hq) as [Hq1 Hq2].
    destruct (float_of_int_nonneg _ n (Nat2Z.is_nonneg _) Hn) as [Hn1 Hn2].
    apply fmul_nonneg_100, fmul_nonneg_finite; assumption.
  - intros H. injection H as <-. reflexivity.
Qed.

Lemma get_container_stats_inv (c : container) (cpu mem : float) :
  get_container_stats c = Ok (cpu, mem) ->
  exists s, stats c = Ok s /\ cpu_percent s = Ok cpu /\ mem_percent s = Ok mem.
Proof.
  intros H. destruct (stats c) as [s | e] eqn:Hs.
  - exists s. split; [reflexivity |].
    apply (MetricsSpec.get_container_stats_ok c s cpu mem Hs). exact H.
  - unfold get_container_stats in H. rewrite Hs in H. discriminate.
Qed.

(** X1. The CPU utilization returned by [get_container_stats] is never
    negative and never a NaN: it is [+0.0], a positive finite float or
    [+inf], whatever the counters are (also when they went backwards). *)
Theorem cpu_usage_never_negative (c : container) (cpu mem : float) :
  get_container_stats c = Ok (cpu, mem) ->
  nonnegative cpu = true /\ fgt f0_0 cpu = false.
Proof.
  intros H. destruct (get_container_stats_inv c cpu mem H) as [s [_ [Hc _]]].
  pose proof (cpu_percent_nonneg s cpu Hc) as Hn.
  split; [exact Hn | apply nonnegative_not_lt_0, Hn].
Qed.

Lemma cpu_usage_never_negative_witness :
  get_container_stats Scenarios.web = Ok (f100_0, f70_0) /\
  nonnegative f100_0 = true /\ fgt f0_0 f100_0 = false.
Proof.
  split; [vm_compute; reflexivity |].
  apply (cpu_usage_never_negative Scenarios.web f100_0 f70_0).
  vm_compute. reflexivity.
Defined.

(** X2. When the per-CPU list of the sample is empty, the CPU utilization
    is exactly [0.0] however busy the counters are, so the CPU never
    raises the alert for that sample. *)
Theorem no_cores_no_cpu_usage (c : container) (s : Stats) (cpu mem : float) :
  stats c = Ok s ->
  percpu_usage (cpu_usage (cpu_stats s)) = [] ->
  get_container_stats c = Ok (cpu, mem) ->
  cpu = f0_0 /\ fgt cpu CPU_THRESHOLD = false.
Proof.
  intros Hs He H.
  apply (MetricsSpec.get_container_stats_ok c s cpu mem Hs) in H.
  destruct H as [Hc _].
  assert (Hcpu : cpu = f0_0).
  { unfold cpu_percent in Hc. rewrite He in Hc.
    destruct ((0 <? system_delta s) && (0 <? cpu_delta s)) eqn:Hg.
    - apply andb_true_iff in Hg. destruct Hg as [Hsd Hcd].
      apply Z.ltb_lt in Hsd. apply Z.ltb_lt in Hcd.
      destruct (truediv (cpu_delta s) (system_delta s)) as [q | e] eqn:Hq;
        cbn [rbind] in Hc; [| discriminate].
      change (float_of_int (len (@nil Z))) with (Ok f0_0) in Hc.
      cbn [rbind] in Hc. injection Hc as <-.
      destruct (truediv_pos _ _ q Hcd Hsd Hq) as [Hq1 Hq2].
      rewrite (fmul_zero_r q Hq1 Hq2). reflexivity.
    - injection Hc as <-. reflexivity. }
  subst cpu. split; reflexivity.
Qed.

Lemma no_cores_no_cpu_usage_witness :
  stats Scenarios.no_cores = Ok Scenarios.stats_no_cores /\
  percpu_usage (cpu_usage (cpu_stats Scenarios.stats_no_cores)) = [] /\
  0 < cpu_delta Scenarios.stats_no_cores /\
  get_container_stats Scenarios.no_cores = Ok (f0_0, f70_0) /\
  fgt f0_0 CPU_THRESHOLD = false.
Proof.
  split; [reflexivity |]. split; [reflexivity |]. split; [reflexivity |].
  split; [vm_compute; reflexivity |].
  apply (no_cores_no_cpu_usage Scenarios.no_cores Scenarios.stats_no_cores
           f0_0 f70_0 eq_refl eq_refl).
  vm_compute. reflexivity.
Defined.

Lemma truediv_ZeroDivisionError (a b : Z) :
  truediv a b = Raise ZeroDivisionError <-> b = 0.
Proof.
  unfold truediv. destruct (b =? 0) eqn:Hb.
  - apply Z.eqb_eq in Hb. tauto.
  - apply Z.eqb_neq in Hb.
    destruct (is_infinity _); split; try discriminate; tauto.
Qed.

(** The guard keeps the CPU computation from dividing by zero. *)
Lemma cpu_percent_no_ZeroDivisionError (s : Stats) :
  cpu_percent s <> Raise ZeroDivisionError.
Proof.
  unfold cpu_percent.
  destruct ((0 <? system_delta s) && (0 <? cpu_delta s)) eqn:Hg;
    [| discriminate].
  apply andb_true_iff in Hg. destruct Hg as [Hsd _]. apply Z.ltb_lt in Hsd.
  destruct (truediv (cpu_delta s) (system_delta s)) as [q | e] eqn:Hq;
    cbn [rbind].
  - unfold float_of_int. destruct (is_infinity _); discriminate.
  - intros H. injection H as ->.
    apply truediv_ZeroDivisionError in Hq. lia.
Qed.

(** X3. [get_container_stats] divides by zero only through the memory
    limit: on a fetched sample it raises [ZeroDivisionError] exactly when
    the limit is 0 and the CPU computation went through; a system delta of
    0 never raises, thanks to the guard. *)
Theorem ZeroDivisionError_iff_zero_limit (c : container) (s : Stats) :
  stats c = Ok s ->
  cpu_percent s <> Raise ZeroDivisionError /\
  (get_container_stats c = Raise ZeroDivisionError
   <-> limit (memory_stats s) = 0 /\ exists cpu, cpu_percent s = Ok cpu).
Proof.
  intros Hs. split; [apply cpu_percent_no_ZeroDivisionError |].
  unfold get_container_stats. rewrite Hs. cbn [rbind].
  pose proof (cpu_percent_no_ZeroDivisionError s) as Hn.
  destruct (cpu_percent s) as [cpu | e]; cbn [rbind].
  - unfold mem_percent.
    destruct (truediv (usage (memory_stats s)) (limit (memory_stats s)))
      as [r | e] eqn:Hm; cbn [rbind].
    + split; [discriminate |]. intros [Hl _].
      rewrite (proj2 (truediv_ZeroDivisionError _ _) Hl) in Hm. discriminate.
    + split.
      * intros H. injection H as ->.
        apply truediv_ZeroDivisionError in Hm.
        split; [exact Hm | exists cpu; reflexivity].
      * intros [Hl _].
        rewrite (proj2 (truediv_ZeroDivisionError _ _) Hl) in Hm.
        injection Hm as <-. reflexivity.
  - split.
    + intros H. injection H as ->. contradiction.
    + intros [_ [cpu Hc]]. discriminate.
Qed.

Lemma ZeroDivisionError_iff_zero_limit_witness :
  stats Scenarios.unlimited = Ok Scenarios.stats5 /\
  get_container_stats Scenarios.unlimited = Raise ZeroDivisionError.
Proof.
  split; [reflexivity |].
  apply (proj2 (ZeroDivisionError_iff_zero_limit Scenarios.unlimited
                  Scenarios.stats5 eq_refl)).
  split; [reflexivity |]. exists f100_0. vm_compute. reflexivity.
Defined.

(** How [send_email_alert] ends, by the step of the session that raised. *)
Lemma send_email_alert_cases smtp (n : string) (cpu mem : float) :
  let server := smtp n cpu mem in
  let block :=
    (_ <- starttls server ;; _ <- login server ;; send_message server)%result
  in
  exists reports,
    send_email_alert smtp n cpu mem
    = (SmtpSendMessage n cpu mem :: reports, Ok tt) /\
    ((connect server = Ok tt /\ block = Ok tt /\ quit server = Ok tt /\
      reports = [PrintAlertEmailSent n]) \/
     (exists e,
        connect server = Ok tt /\ block = Ok tt /\ quit server = Raise e /\
        reports = [PrintAlertEmailSent n; PrintFailedToSendEmail e]) \/
     (exists e,
        reports = [PrintFailedToSendEmail e] /\
        (connect server = Raise e \/
         connect server = Ok tt /\
         exists e1, block = Raise e1 /\
                    (quit server = Raise e \/
                     quit server = Ok tt /\ e = e1)))).
Proof.
  intros server block. subst server block. unfold send_email_alert.
  destruct (smtp n cpu mem)
    as [[[] | e0] [[] | e1] [[] | e2] [[] | e3] [[] | e4]];
    eexists; (split; [reflexivity |]); cbn;
    first
      [ left; repeat split; reflexivity
      | right; left; eexists; repeat split; reflexivity
      | right; right; eexists; split; [reflexivity |];
        first
          [ left; reflexivity
          | right; split; [reflexivity |]; eexists; split; [reflexivity |];
            first [ left; reflexivity | right; split; reflexivity ] ] ].
Qed.

(** X4. For every container the loop body never raises and does one of
    three things.  It prints one error line when the stats could not be
    computed.  It prints the three metric lines and the healthy line when
    no threshold is exceeded.  Or it prints the three metric lines, opens
    one SMTP session for the message and prints how the session ended:
    "sent" when every step and the [QUIT] succeeded; "sent" and then
    "failed" when only the [QUIT] on leaving the [with] block raised;
    "failed" alone when the connection or a step before the print raised,
    with the exception of the [QUIT] if that raised too. *)
Theorem monitor_container_cases smtp (c : container) :
  (exists e,
     get_container_stats c = Raise e /\
     monitor_container smtp c
     = ([PrintErrorFetchingStats (name c) e], Ok tt)) \/
  (exists cpu mem,
     get_container_stats c = Ok (cpu, mem) /\
     fgt cpu CPU_THRESHOLD || fgt mem MEM_THRESHOLD = false /\
     monitor_container smtp c
     = ([PrintContainer (name c); PrintCPU cpu; PrintMemory mem;
         PrintHealthy], Ok tt)) \/
  (exists cpu mem reports,
     get_container_stats c = Ok (cpu, mem) /\
     fgt cpu CPU_THRESHOLD || fgt mem MEM_THRESHOLD = true /\
     monitor_container smtp c
     = (PrintContainer (name c) :: PrintCPU cpu :: PrintMemory mem
        :: SmtpSendMessage (name c) cpu mem :: reports, Ok tt) /\
     let server := smtp (name c) cpu mem in
     let block :=
       (_ <- starttls server ;; _ <- login server ;;
        send_message server)%result in
     ((connect server = Ok tt /\ block = Ok tt /\ quit server = Ok tt /\
       reports = [PrintAlertEmailSent (name c)]) \/
      (exists e,
         connect server = Ok tt /\ block = Ok tt /\ quit server = Raise e /\
         reports = [PrintAlertEmailSent (name c); PrintFailedToSendEmail e]) \/
      (exists e,
         reports = [PrintFailedToSendEmail e] /\
         (connect server = Raise e \/
          connect server = Ok tt /\
          exists e1, block = Raise e1 /\
                     (quit server = Raise e \/
                      quit server = Ok tt /\ e = e1))))).
Proof.
  destruct (get_container_stats c) as [[cpu mem] | e] eqn:Hg.
  - right.
    rewrite (surjective_pairing (monitor_container smtp c)).
    change (fst (monitor_container smtp c))
      with (trace (monitor_container smtp c)).
    change (snd (monitor_container smtp c))
      with (outcome (monitor_container smtp c)).
    rewrite (MetricsSpec.monitor_container_ok smtp c cpu mem Hg).
    rewrite MetricsSpec.monitor_container_total.
    destruct (fgt cpu CPU_THRESHOLD || fgt mem MEM_THRESHOLD) eqn:Ha.
    + right.
      destruct (send_email_alert_cases smtp (name c) cpu mem)
        as [reports [Hsend Hcases]].
      exists cpu, mem, reports.
      split; [reflexivity |]. split; [exact Ha |].
      split; [rewrite Hsend; reflexivity | exact Hcases].
    + left. exists cpu, mem. repeat split; try reflexivity; exact Ha.
  - left. exists e. split; [reflexivity |].
    apply MetricsSpec.monitor_container_raise. exact Hg.
Qed.

(** The three ends of a session, on three servers. *)
Example send_email_alert_three_ends :
  trace (send_email_alert Scenarios.smtp_ok "web" f100_0 f70_0)
  = [SmtpSendMessage "web" f100_0 f70_0; PrintAlertEmailSent "web"] /\
  trace (send_email_alert Scenarios.smtp_bad_quit "web" f100_0 f70_0)
  = [SmtpSendMessage "web" f100_0 f70_0; PrintAlertEmailSent "web";
     PrintFailedToSendEmail (ExternalError "(421, b'timeout')")] /\
  trace (send_email_alert Scenarios.smtp_bad_login "web" f100_0 f70_0)
  = [SmtpSendMessage "web" f100_0 f70_0;
     PrintFailedToSendEmail (ExternalError "(535, b'bad credentials')")] /\
  trace (send_email_alert Scenarios.smtp_down "web" f100_0 f70_0)
  = [SmtpSendMessage "web" f100_0 f70_0;
     PrintFailedToSendEmail (ExternalError "Connection refused")].
Proof. repeat split. Qed.

Lemma without_reports_app (t1 t2 : list event) :
  without_reports (t1 ++ t2) = without_reports t1 ++ without_reports t2.
Proof.
  induction t1 as [| ev t1 IH]; [reflexivity |].
  destruct ev; cbn [app without_reports]; rewrite IH; reflexivity.
Qed.

Lemma notifications_app (t1 t2 : list event) :
  notifications (t1 ++ t2) = notifications t1 ++ notifications t2.
Proof.
  induction t1 as [| ev t1 IH]; [reflexivity |].
  destruct ev; cbn [app notifications]; rewrite IH; reflexivity.
Qed.

Lemma without_reports_send_email_alert smtp (n : string) (cpu mem : float) :
  without_reports (trace (send_email_alert smtp n cpu mem))
  = [SmtpSendMessage n cpu mem].
Proof.
  unfold send_email_alert.
  destruct (smtp n cpu mem)
    as [[[] | e0] [[] | e1] [[] | e2] [[] | e3] [[] | e4]]; reflexivity.
Qed.

Lemma without_reports_monitor_container smtp1 smtp2 (c : container) :
  without_reports (trace (monitor_container smtp1 c))
  = without_reports (trace (monitor_container smtp2 c)).
Proof.
  destruct (get_container_stats c) as [[cpu mem] | e] eqn:Hg.
  - rewrite !(MetricsSpec.monitor_container_ok _ c cpu mem Hg).
    destruct (fgt cpu CPU_THRESHOLD || fgt mem MEM_THRESHOLD);
      [| reflexivity].
    cbn [app without_reports].
    rewrite !without_reports_send_email_alert. reflexivity.
  - rewrite !(MetricsSpec.monitor_container_raise _ c e Hg). reflexivity.
Qed.

(** X5. A failing transport changes nothing but the lines that report how
    the send ended: with any two transports the pass over the listed
    containers ends normally, prints the same metric, healthy and error
    lines and attempts the same notifications, in the same order. *)
Theorem transport_failure_isolated smtp1 smtp2 (containers : list container) :
  outcome (monitor_containers smtp1 (listing containers)) = Ok tt /\
  outcome (monitor_containers smtp2 (listing containers)) = Ok tt /\
  without_reports (trace (monitor_containers smtp1 (listing containers)))
  = without_reports (trace (monitor_containers smtp2 (listing containers))).
Proof.
  rewrite !MetricsSpec.monitor_containers_listing.
  split; [apply for_each_total, MetricsSpec.monitor_container_total |].
  split; [apply for_each_total, MetricsSpec.monitor_container_total |].
  induction containers as [| c cs IH]; [reflexivity |].
  rewrite !for_each_cons by apply MetricsSpec.monitor_container_total.
  rewrite !without_reports_app, IH.
  rewrite (without_reports_monitor_container smtp1 smtp2 c). reflexivity.
Qed.

(** X6. [docker.from_env()] and [client.containers.list()] are outside
    the [try]: when one of them raises, the pass ends with that exception
    and has printed nothing.  When both return, the pass ends normally, and
    a pass over two lists one after the other prints and sends what the
    pass over the first does, followed by what the pass over the second
    does: no container changes what happens for another. *)
Theorem monitor_pass_composes smtp :
  (forall e, monitor_containers smtp (Raise e) = ([], Raise e)) /\
  (forall e,
     monitor_containers smtp (Ok {| containers_list := Raise e |})
     = ([], Raise e)) /\
  (forall cs1 cs2,
     monitor_containers smtp (listing (cs1 ++ cs2))
     = (trace (monitor_containers smtp (listing cs1))
        ++ trace (monitor_containers smtp (listing cs2)), Ok tt)).
Proof.
  split; [reflexivity |]. split; [reflexivity |].
  intros cs1 cs2. rewrite !MetricsSpec.monitor_containers_listing.
  rewrite (surjective_pairing (for_each (cs1 ++ cs2) _)). f_equal.
  - apply (for_each_app (monitor_container smtp) cs1 cs2).
    apply MetricsSpec.monitor_container_total.
  - apply (for_each_total (monitor_container smtp) (cs1 ++ cs2)).
    apply MetricsSpec.monitor_container_total.
Qed.

(** Without a daemon the pass ends with the exception of [from_env]. *)
Example monitor_without_daemon :
  monitor_containers Scenarios.smtp_ok Scenarios.no_daemon
  = ([], Raise (ExternalError "Error while fetching server API version")).
Proof. reflexivity. Qed.

Lemma notifications_monitor_container smtp (c : container) :
  notifications (trace (monitor_container smtp c))
  = match get_container_stats c with
    | Ok (cpu, mem) =>
        if fgt cpu CPU_THRESHOLD || fgt mem MEM_THRESHOLD
        then [(name c, cpu, mem)] else []
    | Raise _ => []
    end.
Proof.
  destruct (get_container_stats c) as [[cpu mem] | e] eqn:Hg.
  - rewrite (MetricsSpec.monitor_container_ok smtp c cpu mem Hg).
    cbn [app notifications].
    destruct (fgt cpu CPU_THRESHOLD || fgt mem MEM_THRESHOLD);
      [apply MetricsSpec.notifications_send_email_alert | reflexivity].
  - rewrite (MetricsSpec.monitor_container_raise smtp c e Hg). reflexivity.
Qed.

(** X7. The notifications of a pass are sound and complete: a message for
    [(n, cpu, mem)] is handed to the transport if and only if a container
    of the list has name [n], utilization [(cpu, mem)] and one of the two
    above its threshold; and there is at most one message per container. *)
Theorem notifications_sound_complete smtp (containers : list container) :
  (forall n cpu mem,
     In (n, cpu, mem)
        (notifications (trace (monitor_containers smtp (listing containers))))
     <-> exists c, In c containers /\ name c = n /\
                   get_container_stats c = Ok (cpu, mem) /\
                   (fgt cpu CPU_THRESHOLD = true \/
                    fgt mem MEM_THRESHOLD = true)) /\
  (List.length
     (notifications (trace (monitor_containers smtp (listing containers))))
   <= List.length containers)%nat.
Proof.
  rewrite !MetricsSpec.monitor_containers_listing.
  induction containers as [| c cs [IH1 IH2]].
  - split; [| apply Nat.le_refl]. intros n cpu mem. split.
    + intros [].
    + intros [c [[] _]].
  - rewrite for_each_cons by apply MetricsSpec.monitor_container_total.
    rewrite notifications_app, notifications_monitor_container.
    split.
    + intros n cpu mem. rewrite in_app_iff, IH1. split.
      * intros [Hin | [c' [Hc' Hrest]]].
        -- exists c. split; [left; reflexivity |].
           destruct (get_container_stats c) as [[cpu' mem'] | e];
             [| destruct Hin].
           destruct (fgt cpu' CPU_THRESHOLD || fgt mem' MEM_THRESHOLD) eqn:Ha;
             [| destruct Hin].
           destruct Hin as [Hin | []]. injection Hin as <- <- <-.
           apply orb_true_iff in Ha.
           split; [reflexivity |]. split; [reflexivity | exact Ha].
        -- exists c'. split; [right; exact Hc' | exact Hrest].
      * intros [c' [[<- | Hc'] [Hn [Hg Ha]]]].
        -- left. rewrite Hg.
           apply orb_true_iff in Ha. rewrite Ha, Hn. left. reflexivity.
        -- right. exists c'. repeat split; assumption.
    + rewrite length_app. cbn [List.length].
      apply (Nat.le_trans _ (1 + List.length cs)); [| apply Nat.le_refl].
      apply Nat.add_le_mono; [| exact IH2].
      destruct (get_container_stats c) as [[cpu' mem'] | e];
        [| apply Nat.le_0_l].
      destruct (fgt cpu' CPU_THRESHOLD || fgt mem' MEM_THRESHOLD);
        [apply Nat.le_refl | apply Nat.le_0_l].
Qed.

(** X8. With a non-negative usage and a positive limit the memory
    utilization is never negative and never a NaN, and a usage of 0 gives
    exactly [0.0]. *)
Theorem mem_usage_nonnegative (c : container) (s : Stats) (cpu mem : float) :
  stats c = Ok s ->
  0 <= usage (memory_stats s) ->
  0 < limit (memory_stats s) ->
  get_container_stats c = Ok (cpu, mem) ->
  nonnegative mem = true /\ (usage (memory_stats s) = 0 -> mem = f0_0).
Proof.
  intros Hs Hu Hl H.
  apply (MetricsSpec.get_container_stats_ok c s cpu mem Hs) in H.
  destruct H as [_ Hm]. unfold mem_percent in Hm.
  destruct (truediv (usage (memory_stats s)) (limit (memory_stats s)))
    as [r | e] eqn:Hr; cbn [rbind] in Hm; [| discriminate].
  injection Hm as <-.
  destruct (Z.eq_dec (usage (memory_stats s)) 0) as [H0 | H0].
  - rewrite H0, (truediv_zero _ Hl) in Hr. injection Hr as <-.
    split; reflexivity.
  - assert (Hpos : 0 < usage (memory_stats s)) by lia.
    destruct (truediv_pos _ _ r Hpos Hl Hr) as [Hr1 _].
    split; [apply fmul_nonneg_100, Hr1 | intros; contradiction].
Qed.

Lemma mem_usage_nonnegative_witness :
  stats Scenarios.empty = Ok Scenarios.stats_empty /\
  get_container_stats Scenarios.empty = Ok (f100_0, f0_0) /\
  nonnegative f0_0 = true.
Proof.
  split; [reflexivity |]. split; [vm_compute; reflexivity |].
  apply (mem_usage_nonnegative Scenarios.empty Scenarios.stats_empty
           f100_0 f0_0 eq_refl).
  - vm_compute. discriminate.
  - reflexivity.
  - vm_compute. reflexivity.
Defined.

End MetricsProps.

(** ** Further properties of the load injector *)

Module LoadTestProps.

Import LoadTest.

Local Open Scope string_scope.
Local Open Scope list_scope.

Lemma check_stress_ng_eq (c : container) :
  outcome (check_stress_ng c) = Ok (has_stress_ng_of c) /\
  requests (trace (check_stress_ng c)) = [("which stress-ng", false)].
Proof.
  unfold has_stress_ng_of.
  destruct (exec_run c "which stress-ng" false) as [r | e] eqn:H.
  - rewrite (LoadTestSpec.check_stress_ng_ok c r H). split; reflexivity.
  - rewrite (LoadTestSpec.check_stress_ng_raise c e H). split; reflexivity.
Qed.

Lemma requests_app (t1 t2 : list event) :
  requests (t1 ++ t2) = requests t1 ++ requests t2.
Proof.
  induction t1 as [| ev t1 IH]; [reflexivity |].
  destruct ev; cbn [app requests]; rewrite IH; reflexivity.
Qed.

Lemma requests_dispatch (c : container) (command : string) :
  requests (trace (dispatch c command)) = [(command, true)].
Proof.
  destruct (exec_run c command true) as [r | e] eqn:H.
  - rewrite (LoadTestSpec.dispatch_ok c command r H).
    destruct (exit_code_not_in_0_None r); [| reflexivity].
    destruct (decode (output r)); reflexivity.
  - rewrite (LoadTestSpec.dispatch_raise c command e H). reflexivity.
Qed.

Lemma requests_run_stress (c : container) (mode : string) (duration : Z) :
  requests (trace (run_stress c mode duration))
  = [("which stress-ng", false);
     (cmd (has_stress_ng_of c) mode duration, true)].
Proof.
  destruct (check_stress_ng_eq c) as [Hb Hr].
  rewrite (LoadTestSpec.run_stress_eq c mode duration _ Hb).
  cbn [trace fst]. rewrite requests_app, Hr.
  destruct (has_stress_ng_of c); cbn [app requests];
    rewrite requests_dispatch; reflexivity.
Qed.

(** X9. [run_stress] never raises and asks its container for exactly two
    executions: first the lookup of the tool, not detached, then the
    command selected from the outcome of that lookup, detached. *)
Theorem run_stress_requests (c : container) (mode : string) (duration : Z) :
  outcome (run_stress c mode duration) = Ok tt /\
  requests (trace (run_stress c mode duration))
  = [("which stress-ng", false);
     (cmd (has_stress_ng_of c) mode duration, true)].
Proof.
  split.
  - destruct (check_stress_ng_eq c) as [Hb _].
    rewrite (LoadTestSpec.run_stress_eq c mode duration _ Hb). reflexivity.
  - apply requests_run_stress.
Qed.

(** X10. When the lookup of the tool raises, or returns with an exit code
    other than 0 (or with none), [run_stress] goes on with the interpreter
    fallback: it prints that the tool was not found (after the warning, if
    the lookup raised) and dispatches the fallback command of the mode. *)
Theorem probe_failure_falls_back (c : container) (mode : string)
  (duration : Z) :
  (forall e,
     exec_run c "which stress-ng" false = Raise e ->
     run_stress c mode duration
     = (ExecRun (name c) "which stress-ng" false
        :: PrintCouldNotCheck (name c) e
        :: PrintNotFound (name c)
        :: PrintStarting mode (name c) duration
        :: trace (dispatch c (cmd false mode duration)), Ok tt)) /\
  (forall r,
     exec_run c "which stress-ng" false = Ok r ->
     exit_code r <> Some 0 ->
     run_stress c mode duration
     = (ExecRun (name c) "which stress-ng" false
        :: PrintNotFound (name c)
        :: PrintStarting mode (name c) duration
        :: trace (dispatch c (cmd false mode duration)), Ok tt)).
Proof.
  split.
  - intros e H.
    pose proof (LoadTestSpec.check_stress_ng_raise c e H) as Hc.
    rewrite (LoadTestSpec.run_stress_eq c mode duration false);
      rewrite Hc; reflexivity.
  - intros r H Hx.
    pose proof (LoadTestSpec.check_stress_ng_ok c r H) as Hc.
    assert (Hf : exit_code_is_0 r = false).
    { destruct (exit_code_is_0 r) eqn:Hz; [| reflexivity].
      apply LoadTestSpec.exit_code_is_0_iff in Hz. contradiction. }
    rewrite Hf in Hc.
    rewrite (LoadTestSpec.run_stress_eq c mode duration false);
      rewrite Hc; reflexivity.
Qed.

(** X11. Without the tool the duration has no effect on the command,
    whatever the mode: the fallback commands carry no timeout. *)
Theorem fallback_ignores_duration (mode : string) (d1 d2 : Z) :
  cmd false mode d1 = cmd false mode d2 /\
  forall c : container,
    has_stress_ng_of c = false ->
    requests (trace (run_stress c mode d1))
    = requests (trace (run_stress c mode d2)).
Proof.
  split; [reflexivity |].
  intros c Hb.
  rewrite (requests_run_stress c mode d1).
  rewrite (requests_run_stress c mode d2).
  rewrite Hb. reflexivity.
Qed.

Lemma append_inj_l (p s1 s2 : string) :
  (p ++ s1)%string = (p ++ s2)%string -> s1 = s2.
Proof.
  induction p as [| a p IH]; cbn [append]; intros H; [exact H |].
  injection H as H. apply IH, H.
Qed.

Lemma str_inj (d1 d2 : Z) : str d1 = str d2 -> d1 = d2.
Proof.
  intros H. apply (f_equal int) in H.
  rewrite !LoadTestSpec.int_str in H. injection H as ->. reflexivity.
Qed.

(** X12. With the tool the command carries the duration faithfully: in
    every mode, two durations give the same command only when they are
    equal. *)
Theorem tool_command_carries_duration (mode : string) (d1 d2 : Z) :
  cmd true mode d1 = cmd true mode d2 <-> d1 = d2.
Proof.
  split; [| intros ->; reflexivity].
  unfold cmd. destruct (mode =? "cpu"); [| destruct (mode =? "mem")];
    intros H; apply append_inj_l in H; apply str_inj, H.
Qed.

(** X15. The dispatcher never raises.  It prints the success line exactly
    when the detached request returned with exit code 0 or without exit
    code.  When the request raised, it prints the failure line with that
    exception.  For any other exit code it prints the failure line: with
    the output when the output is [bytes], with [AttributeError] when it
    is a [str]. *)
Theorem dispatch_cases (c : container) (command : string) :
  outcome (dispatch c command) = Ok tt /\
  (In (PrintExecuted (name c)) (trace (dispatch c command))
   <-> exists r, exec_run c command true = Ok r /\
                 (exit_code r = Some 0 \/ exit_code r = None)) /\
  (forall e,
     exec_run c command true = Raise e ->
     trace (dispatch c command)
     = [ExecRun (name c) command true; PrintFailed (name c) e]) /\
  (forall r z,
     exec_run c command true = Ok r -> exit_code r = Some z -> z <> 0 ->
     trace (dispatch c command)
     = [ExecRun (name c) command true;
        match output r with
        | Bytes b => PrintFailedOutput (name c) b
        | Str _ => PrintFailed (name c) AttributeError
        end]).
Proof.
  split; [apply LoadTestSpec.dispatch_total |].
  split; [| split].
  - destruct (exec_run c command true) as [r | e] eqn:H.
    + rewrite (LoadTestSpec.dispatch_ok c command r H). cbn [trace fst].
      destruct (exit_code_not_in_0_None r) eqn:Hx.
      * split.
        -- destruct (decode (output r));
             intros [Hin | [Hin | []]]; discriminate.
        -- intros [r' [Hr Hc]]. injection Hr as <-.
           apply LoadTestSpec.exit_code_not_in_0_None_false in Hc.
           congruence.
      * split.
        -- intros _. exists r. split; [reflexivity |].
           apply LoadTestSpec.exit_code_not_in_0_None_false. exact Hx.
        -- intros _. right. left. reflexivity.
    + rewrite (LoadTestSpec.dispatch_raise c command e H). cbn [trace fst].
      split.
      * intros [Hin | [Hin | []]]; discriminate.
      * intros [r [Hr _]]. discriminate.
  - intros e H. rewrite (LoadTestSpec.dispatch_raise c command e H).
    reflexivity.
  - intros r z H Hz Hnz. rewrite (LoadTestSpec.dispatch_ok c command r H).
    rewrite (LoadTestSpec.exit_code_not_in_0_None_true r z Hz Hnz).
    destruct (output r); reflexivity.
Qed.

Lemma stress_container_ok get (mode : string) (duration : Z) (n : string)
  (c : container) :
  get n = Ok c ->
  stress_container get mode duration n
  = (PrintTarget (name c) (short_id c) :: trace (run_stress c mode duration),
     Ok tt).
Proof.
  intros H. unfold stress_container. rewrite H.
  pose proof (LoadTestSpec.run_stress_total c mode duration) as Hr.
  io_unfold. unfold outcome in Hr. rewrite Hr. reflexivity.
Qed.

Lemma stress_container_raise get (mode : string) (duration : Z) (n : string)
  (e : exn) :
  get n = Raise e ->
  stress_container get mode duration n = ([PrintCouldNotAccess n e], Ok tt).
Proof. intros H. unfold stress_container. rewrite H. reflexivity. Qed.

Lemma main_eq (args : Args) (client : Client) :
  main (Ok args) (Ok client)
  = (trace (for_each (containers args)
              (stress_container (containers_get client) (mode args)
                 (duration args)))
     ++ [PrintLaunched], Ok tt).
Proof.
  unfold main.
  pose proof (for_each_total _ (containers args)
                (LoadTestSpec.stress_container_total (containers_get client)
                   (mode args) (duration args))) as Hloop.
  unfold bind, lift, print, trace, outcome in *. cbn [fst snd app].
  rewrite Hloop. reflexivity.
Qed.

Lemma requests_main (args : Args) (client : Client) :
  requests (trace (main (Ok args) (Ok client)))
  = flat_map
      (fun n =>
         match containers_get client n with
         | Ok c => [("which stress-ng", false);
                    (cmd (has_stress_ng_of c) (mode args) (duration args),
                     true)]
         | Raise _ => []
         end) (containers args).
Proof.
  rewrite main_eq.
  cbn [trace fst]. rewrite requests_app. cbn [requests].
  rewrite app_nil_r.
  induction (containers args) as [| n ns IH]; [reflexivity |].
  rewrite for_each_cons by apply LoadTestSpec.stress_container_total.
  rewrite requests_app, IH. cbn [flat_map]. f_equal.
  destruct (containers_get client n) as [c | e] eqn:Hg.
  - rewrite (stress_container_ok _ (mode args) (duration args) n c Hg).
    cbn [trace fst requests].
    apply (requests_run_stress c (mode args) (duration args)).
  - rewrite (stress_container_raise _ (mode args) (duration args) n e Hg).
    reflexivity.
Qed.


(** Without a daemon, and on a command line that argparse refuses, [main]
    ends before its loop. *)
Example main_ends_before_the_loop :
  main Scenarios.argv_four Scenarios.no_daemon
  = ([], Raise (ExternalError "Error while fetching server API version")) /\
  main Scenarios.argv_bad_mode Scenarios.docker
  = ([], Raise (ExternalError "SystemExit: 2")).
Proof. split; reflexivity. Qed.

(** X14. When none of the containers can be accessed, [main] executes
    nothing, prints one line per name saying so, and still ends with the
    line that the stress tests were launched successfully. *)
Theorem main_reports_launch_when_nothing_ran (args : Args) (client : Client) :
  (forall n, In n (containers args) ->
             exists e, containers_get client n = Raise e) ->
  requests (trace (main (Ok args) (Ok client))) = [] /\
  exists t,
    main (Ok args) (Ok client) = (t ++ [PrintLaunched], Ok tt) /\
    Forall2 (fun n ev => exists e, containers_get client n = Raise e /\
                                   ev = PrintCouldNotAccess n e)
            (containers args) t.
Proof.
  intros Hall. split.
  - rewrite (requests_main args client).
    induction (containers args) as [| n ns IH]; [reflexivity |].
    cbn [flat_map]. destruct (Hall n (or_introl eq_refl)) as [e He].
    rewrite He. cbn [app]. apply IH.
    intros n' Hn'. apply Hall. right. exact Hn'.
  - rewrite main_eq.
    exists (trace (for_each (containers args)
                     (stress_container (containers_get client) (mode args)
                        (duration args)))).
    split; [reflexivity |].
    induction (containers args) as [| n ns IH]; [constructor |].
    rewrite for_each_cons by apply LoadTestSpec.stress_container_total.
    destruct (Hall n (or_introl eq_refl)) as [e He].
    rewrite (stress_container_raise _ (mode args) (duration args) n e He).
    cbn [trace fst app]. constructor.
    + exists e. split; [exact He | reflexivity].
    + apply IH. intros n' Hn'. apply Hall. right. exact Hn'.
Qed.

Lemma main_reports_launch_when_nothing_ran_witness :
  (forall n, In n ["ghost"; "nobody"] ->
             exists e, Scenarios.client n = Raise e) /\
  requests
    (trace (main (Ok {| containers := ["ghost"; "nobody"];
                        mode := "both";
                        duration := 60 |})
                 Scenarios.docker)) = [].
Proof.
  assert (H : forall n, In n ["ghost"; "nobody"] ->
                        exists e, Scenarios.client n = Raise e).
  { intros n [<- | [<- | []]]; eexists; reflexivity. }
  split; [exact H |].
  exact (proj1 (main_reports_launch_when_nothing_ran
                  {| containers := ["ghost"; "nobody"];
                     mode := "both";
                     duration := 60 |}
                  {| containers_get := Scenarios.client |} H)).
Defined.

End LoadTestProps.
